(** * x86 TLB flushing interface: arch/x86/include/asm/tlbflush.h

    A shallow embedding of the inline functions and macros of the header
    (generation counter, PCID encoding of ASIDs, the per-CPU [tlb_state],
    the CR4 shadow, the local flush primitives and the flush entry points),
    followed by the properties the design document states about them.

    Conventions.
    - C integers are [Z] with the wrap-around written out: [u16] values
      live in [0, 2^16), [u64] and [unsigned long] (x86-64) in [0, 2^64).
    - Pointers to [struct mm_struct] are keys of a heap ([gmap]);
      dereferencing a pointer that is not mapped makes the computation
      fail ([None]).
    - Code runs in the monad [M]: the state is the kernel memory the header
      touches, the registers and TLB of the executing CPU, and a log of the
      debug assertions that fired and of the privileged instructions that
      were issued. *)

From stdpp Require Import base option list vector gmap sets.
From Stdlib Require Import ZArith Lia Bool Sorted.

Local Open Scope Z_scope.

(** ** Machine integers *)

Definition wrap (w : Z) (x : Z) : Z := x mod 2 ^ w.

Definition u16 (x : Z) : Z := wrap 16 x.
Definition u64 (x : Z) : Z := wrap 64 x.

Definition U64_MAX : Z := 2 ^ 64 - 1.

(** [~x] on an [unsigned long]. *)
Definition not64 (x : Z) : Z := u64 (Z.lnot x).

Definition in_u16 (x : Z) : Prop := 0 <= x < 2 ^ 16.
Definition in_u64 (x : Z) : Prop := 0 <= x < 2 ^ 64.

(** ** Constants of the header *)

(** There are 12 bits of space for ASIDS in CR3. *)
Definition CR3_HW_ASID_BITS : Z := 12.
Definition PTI_CONSUMED_ASID_BITS : Z := 0.
Definition CR3_AVAIL_ASID_BITS : Z := CR3_HW_ASID_BITS - PTI_CONSUMED_ASID_BITS.

(** [((1 << CR3_AVAIL_ASID_BITS) - 2)]: ASIDs are zero-based, and ASID 0 is
    reserved for use by non-PCID-aware users. *)
Definition MAX_ASID_AVAILABLE : Z := Z.shiftl 1 CR3_AVAIL_ASID_BITS - 2.

(** [#define TLB_NR_DYN_ASIDS 6] *)
Definition TLB_NR_DYN_ASIDS : nat := 6.

(** [#define TLB_FLUSH_ALL -1UL] *)
Definition TLB_FLUSH_ALL : Z := u64 (- 1).

(** ** Constants the header takes from other headers

    The values below are fixed by the x86 architecture and by linux/mm.h;
    the header uses them by name (asm/processor-flags.h,
    asm/page_types.h, linux/mm.h). *)

(** Bit 7 of CR4: page global enable. *)
Definition X86_CR4_PGE_BIT : Z := 7.
Definition X86_CR4_PGE : Z := Z.shiftl 1 X86_CR4_PGE_BIT.
(** Bit 17 of CR4: PCID enable. *)
Definition X86_CR4_PCIDE_BIT : Z := 17.
Definition X86_CR4_PCIDE : Z := Z.shiftl 1 X86_CR4_PCIDE_BIT.
(** Bit 63 of a value written to CR3: do not flush. *)
Definition CR3_NOFLUSH_BIT : Z := 63.
Definition CR3_NOFLUSH : Z := Z.shiftl 1 CR3_NOFLUSH_BIT.
(** The PCID field of CR3 (its low [CR3_HW_ASID_BITS] bits). *)
Definition CR3_PCID_MASK : Z := Z.ones CR3_HW_ASID_BITS.

(** 4K pages. *)
Definition PAGE_SHIFT : Z := 12.
Definition PAGE_SIZE : Z := Z.shiftl 1 PAGE_SHIFT.

Definition VM_NONE : Z := 0.

(** ** Data model *)

(** CPU features the header queries. *)
Inductive x86_feature : Set :=
| X86_FEATURE_PCID
| X86_FEATURE_PGE
| X86_FEATURE_INVPCID.

(** Pointers. *)
Definition mm_ptr : Set := nat.
Definition pgd_ptr : Set := nat.
Definition cpu_id : Set := nat.

(** The part of [struct mm_struct] the header reads and writes:
    [mm->context.ctx_id], [mm->context.tlb_gen] (an [atomic64_t]) and the
    CPU mask behind [mm_cpumask(mm)]. *)
Record mm_struct : Type := Build_mm_struct {
  context_ctx_id : Z;
  context_tlb_gen : Z;
  cpu_bitmap : gset cpu_id
}.

(** [struct tlb_context { u64 ctx_id; u64 tlb_gen; }] *)
Record tlb_context : Type := Build_tlb_context {
  ctx_id : Z;
  tlb_gen : Z
}.

(** [struct tlb_state]; [ctxs] is the array
    [struct tlb_context ctxs[TLB_NR_DYN_ASIDS]]. *)
Record tlb_state : Type := Build_tlb_state {
  loaded_mm : mm_ptr;
  loaded_mm_asid : Z;
  next_asid : Z;
  is_lazy : bool;
  cr4 : Z;
  ctxs : vec tlb_context TLB_NR_DYN_ASIDS
}.

(** [cpu_tlbstate.ctxs[asid]]: the ASID is the index into [ctxs]. *)
Definition ctxs_at (ts : tlb_state) (asid : nat) : option tlb_context :=
  vec_to_list (ctxs ts) !! asid.

(** [struct flush_tlb_info]; [mm] may be [NULL]. *)
Record flush_tlb_info : Type := Build_flush_tlb_info {
  fti_mm : option mm_ptr;
  fti_start : Z;
  fti_end : Z;
  new_tlb_gen : Z
}.

(** The three kinds of flushes listed in the comment of
    [struct flush_tlb_info]. *)
Inductive flush_kind : Set :=
| FullSingleMm      (* .mm set, .end TLB_FLUSH_ALL *)
| PartialSingleMm   (* .mm set, .start/.end give the range *)
| FullAllMms.       (* .mm NULL, .end TLB_FLUSH_ALL *)

Definition flush_info_kind (info : flush_tlb_info) : option flush_kind :=
  match fti_mm info, Z.eqb (fti_end info) TLB_FLUSH_ALL with
  | Some _, true => Some FullSingleMm
  | Some _, false => Some PartialSingleMm
  | None, true => Some FullAllMms
  | None, false => None
  end.

(** The fields of [struct vm_area_struct] the header reads. *)
Record vm_area_struct : Type := Build_vm_area_struct {
  vm_mm : mm_ptr;
  vm_flags : Z
}.

(** [struct arch_tlbflush_unmap_batch]: the CPUs a batched unmap has to
    flush. *)
Record arch_tlbflush_unmap_batch : Type := Build_arch_tlbflush_unmap_batch {
  cpumask : gset cpu_id
}.

(** ** The executing CPU *)

(** A cached translation: the PCID it is tagged with, whether it comes from
    a global page, and the virtual page it translates. *)
Record tlb_entry : Type := Build_tlb_entry {
  te_pcid : Z;
  te_global : bool;
  te_vpn : Z
}.

(** What the log records. *)
Inductive warn_site : Set :=
| WARN_kern_pcid_asid_range
| WARN_build_cr3_asid_nonzero
| WARN_build_cr3_noflush_asid_range
| WARN_build_cr3_noflush_no_pcid
| WARN_cr4_set_irqs_enabled.

Inductive event : Set :=
| EvWarn (site : warn_site)
| EvWriteCR3 (val : Z)
| EvWriteCR4 (val : Z)
| EvInvpcidAll
| EvInvlpg (addr : Z)
| EvFlushTlbMmRange (mm : mm_ptr) (start end_ vmflag : Z).

(** Build- and boot-time facts: whether [CONFIG_DEBUG_VM] and
    [CONFIG_PROVE_LOCKING] are set, the feature bits of the boot CPU, and the physical address (with the SME
    mask) of each page-table root. *)
Record config : Type := Build_config {
  CONFIG_DEBUG_VM : bool;
  CONFIG_PROVE_LOCKING : bool;
  boot_cpu_data : x86_feature -> bool;
  sme_pa : pgd_ptr -> Z
}.

Record kstate : Type := Build_kstate {
  cfg : config;
  mms : gmap mm_ptr mm_struct;
  cpu_tlbstate : tlb_state;
  hw_cr3 : Z;
  hw_cr4 : Z;
  hw_tlb : list tlb_entry;
  irqs_enabled : bool;
  preempt_count : Z;
  klog : list event
}.

Definition set_mms (f : gmap mm_ptr mm_struct -> gmap mm_ptr mm_struct)
    (s : kstate) : kstate :=
  Build_kstate (cfg s) (f (mms s)) (cpu_tlbstate s) (hw_cr3 s) (hw_cr4 s)
    (hw_tlb s) (irqs_enabled s) (preempt_count s) (klog s).

Definition set_cpu_tlbstate (f : tlb_state -> tlb_state) (s : kstate) : kstate :=
  Build_kstate (cfg s) (mms s) (f (cpu_tlbstate s)) (hw_cr3 s) (hw_cr4 s)
    (hw_tlb s) (irqs_enabled s) (preempt_count s) (klog s).

Definition set_hw_cr3 (v : Z) (s : kstate) : kstate :=
  Build_kstate (cfg s) (mms s) (cpu_tlbstate s) v (hw_cr4 s)
    (hw_tlb s) (irqs_enabled s) (preempt_count s) (klog s).

Definition set_hw_cr4 (v : Z) (s : kstate) : kstate :=
  Build_kstate (cfg s) (mms s) (cpu_tlbstate s) (hw_cr3 s) v
    (hw_tlb s) (irqs_enabled s) (preempt_count s) (klog s).

Definition set_hw_tlb (f : list tlb_entry -> list tlb_entry) (s : kstate) : kstate :=
  Build_kstate (cfg s) (mms s) (cpu_tlbstate s) (hw_cr3 s) (hw_cr4 s)
    (f (hw_tlb s)) (irqs_enabled s) (preempt_count s) (klog s).

Definition set_irqs_enabled (b : bool) (s : kstate) : kstate :=
  Build_kstate (cfg s) (mms s) (cpu_tlbstate s) (hw_cr3 s) (hw_cr4 s)
    (hw_tlb s) b (preempt_count s) (klog s).

Definition set_preempt_count (f : Z -> Z) (s : kstate) : kstate :=
  Build_kstate (cfg s) (mms s) (cpu_tlbstate s) (hw_cr3 s) (hw_cr4 s)
    (hw_tlb s) (irqs_enabled s) (f (preempt_count s)) (klog s).

Definition add_event (e : event) (s : kstate) : kstate :=
  Build_kstate (cfg s) (mms s) (cpu_tlbstate s) (hw_cr3 s) (hw_cr4 s)
    (hw_tlb s) (irqs_enabled s) (preempt_count s) (klog s ++ [e]).

Definition set_cr4 (v : Z) (ts : tlb_state) : tlb_state :=
  Build_tlb_state (loaded_mm ts) (loaded_mm_asid ts) (next_asid ts)
    (is_lazy ts) v (ctxs ts).

(** ** The monad *)

Definition M (A : Type) : Type := kstate -> option (A * kstate).

Definition ret {A} (a : A) : M A := fun s => Some (a, s).

Definition bind {A B} (m : M A) (k : A -> M B) : M B :=
  fun s => match m s with
           | Some (a, s') => k a s'
           | None => None
           end.

Definition gets {A} (f : kstate -> A) : M A := fun s => Some (f s, s).
Definition modify (f : kstate -> kstate) : M unit := fun s => Some (tt, f s).

Declare Scope kern_scope.
Delimit Scope kern_scope with kern.
Notation "x ← y ; z" := (bind y (fun x => z))
  (at level 20, y at level 100, z at level 200, only parsing) : kern_scope.
Notation "x ;; z" := (bind x (fun _ => z))
  (at level 100, z at level 200, only parsing, right associativity) : kern_scope.
Local Open Scope kern_scope.

Definition when (b : bool) (m : M unit) : M unit :=
  if b then m else ret tt.

(** ** Primitives from other headers *)

(** Modelled from the spec: [VM_WARN_ON_ONCE] is defined in
    linux/mmdebug.h, not in this header.  The design document calls
    violated preconditions debug-time assertions that signal a bug in a
    caller and are not recovered from: in a debug build the assertion is
    recorded when its condition holds, otherwise nothing happens, and
    execution continues either way. *)
Definition VM_WARN_ON_ONCE (site : warn_site) (cond : bool) : M unit :=
  dbg ← gets (fun s => CONFIG_DEBUG_VM (cfg s));
  when (dbg && cond) (modify (add_event (EvWarn site))).

(** Modelled from the spec: [static_cpu_has] and [boot_cpu_has] are
    defined in asm/cpufeature.h, not in this header; they are the hardware
    capability query, answered from the feature bits of the boot CPU. *)
Definition static_cpu_has (f : x86_feature) : M bool :=
  gets (fun s => boot_cpu_data (cfg s) f).

Definition boot_cpu_has (f : x86_feature) : M bool :=
  gets (fun s => boot_cpu_data (cfg s) f).

(** [__sme_pa(pgd)], from linux/mem_encrypt.h: taken as a parameter of the
    configuration. *)
Definition __sme_pa (pgd : pgd_ptr) : M Z :=
  gets (fun s => sme_pa (cfg s) pgd).

(** Modelled from the spec: [atomic64_inc_return] is defined in
    asm/atomic64_64.h, not in this header.  It atomically increments the
    counter and returns the new value: one indivisible read-modify-write of
    the shared heap.  The counter is read as the [u64] that
    [inc_mm_tlb_gen] returns, so the increment wraps at [2^64]. *)
Definition atomic64_inc_return_tlb_gen (mm : mm_ptr) : M Z :=
  fun s =>
    match mms s !! mm with
    | Some m =>
        let g := u64 (context_tlb_gen m + 1) in
        Some (g, set_mms
                   <[mm := Build_mm_struct (context_ctx_id m) g (cpu_bitmap m)]> s)
    | None => None
    end.

(** Modelled from the spec: [mm_cpumask(mm)] is defined in
    linux/mm_types.h, not in this header; it reads the address space's
    affinity set, the CPUs that may hold cached translations for it. *)
Definition mm_cpumask (mm : mm_ptr) : M (gset cpu_id) :=
  fun s =>
    match mms s !! mm with
    | Some m => Some (cpu_bitmap m, s)
    | None => None
    end.

(** Modelled from the spec: [cpumask_or(dst, src1, src2)] is defined in
    linux/cpumask.h, not in this header; a CPU mask is the set of its CPUs
    and the bitwise or of two masks is their union. *)
Definition cpumask_or (src1 src2 : gset cpu_id) : gset cpu_id := src1 ∪ src2.

(** Modelled from the spec: the primitives for disabling and enabling
    interrupts and preemption are defined in linux/irqflags.h and
    linux/preempt.h, not in this header.  [local_irq_save] hands back the interrupt flag and
    clears it, [local_irq_restore] puts the saved flag back;
    [preempt_disable] and [preempt_enable] count the nesting depth. *)
Definition local_irq_save : M bool :=
  flags ← gets irqs_enabled;
  modify (set_irqs_enabled false);;
  ret flags.

Definition local_irq_restore (flags : bool) : M unit :=
  modify (set_irqs_enabled flags).

Definition raw_local_irq_save : M bool := local_irq_save.
Definition raw_local_irq_restore (flags : bool) : M unit :=
  local_irq_restore flags.

Definition preempt_disable : M unit := modify (set_preempt_count Z.succ).
Definition preempt_enable : M unit := modify (set_preempt_count Z.pred).

(** Modelled from the spec: [lockdep_assert_irqs_disabled()] is defined in
    linux/lockdep.h, not in this header; it is a debug-time assertion: with
    [CONFIG_PROVE_LOCKING] it warns when interrupts are enabled. *)
Definition lockdep_assert_irqs_disabled : M unit :=
  chk ← gets (fun s => CONFIG_PROVE_LOCKING (cfg s));
  irq ← gets irqs_enabled;
  when (chk && irq) (modify (add_event (EvWarn WARN_cr4_set_irqs_enabled))).

(** [this_cpu_read(cpu_tlbstate.cr4)] and [this_cpu_write(cpu_tlbstate.cr4, v)]. *)
Definition this_cpu_read_cr4 : M Z := gets (fun s => cr4 (cpu_tlbstate s)).
Definition this_cpu_write_cr4 (v : Z) : M unit :=
  modify (set_cpu_tlbstate (set_cr4 v)).

(** ** The processor

    The register accessors and invalidation instructions are the direct
    invalidation transport of the design document.  Their wrappers
    ([__native_read_cr3], [native_write_cr3], [native_write_cr4],
    [invpcid_flush_all], the [invlpg] instruction) are defined in
    asm/special_insns.h and asm/invpcid.h, not in this header; what each
    does to the TLB is the processor's rule. *)

Definition cr4_pge (v : Z) : bool := Z.testbit v X86_CR4_PGE_BIT.
Definition cr4_pcide (v : Z) : bool := Z.testbit v X86_CR4_PCIDE_BIT.

(** Modelled from the spec: [__native_read_cr3] (asm/special_insns.h)
    reads the root register. *)
Definition __native_read_cr3 : M Z := gets hw_cr3.

(** A translation survives a write to CR3 when it is global or tagged with
    another PCID than the one being loaded. *)
Definition cr3_write_keeps (pcid : Z) (e : tlb_entry) : bool :=
  te_global e || negb (Z.eqb (te_pcid e) pcid).

(** Modelled from the spec: [native_write_cr3] (asm/special_insns.h) writes
    the root register.  The processor then drops the non-global
    translations tagged with the PCID being loaded (PCID 0 while
    CR4.PCIDE is clear), unless PCIDs are enabled and bit 63 of the written
    value is set; bit 63 itself is not kept in the register. *)
Definition native_write_cr3 (val : Z) : M unit :=
  modify (fun s =>
    let pcide := cr4_pcide (hw_cr4 s) in
    let noflush := pcide && Z.testbit val CR3_NOFLUSH_BIT in
    let pcid := if pcide then Z.land val CR3_PCID_MASK else 0 in
    add_event (EvWriteCR3 val)
      (set_hw_tlb (fun t => if noflush then t
                            else List.filter (cr3_write_keeps pcid) t)
         (set_hw_cr3 (Z.ldiff val CR3_NOFLUSH) s))).

(** A write to CR4 that changes CR4.PGE, or clears CR4.PCIDE, drops every
    translation, global ones included; a write that does neither is taken
    to drop nothing. *)
Definition cr4_write_flushes (old new : Z) : bool :=
  negb (Bool.eqb (cr4_pge old) (cr4_pge new))
  || (cr4_pcide old && negb (cr4_pcide new)).

(** Modelled from the spec: [native_write_cr4] (asm/special_insns.h) writes
    the control register. *)
Definition native_write_cr4 (val : Z) : M unit :=
  modify (fun s =>
    add_event (EvWriteCR4 val)
      (set_hw_tlb (fun t => if cr4_write_flushes (hw_cr4 s) val then [] else t)
         (set_hw_cr4 val s))).

(** Without [CONFIG_PARAVIRT], [__write_cr4] is [native_write_cr4]. *)
Definition __write_cr4 (val : Z) : M unit := native_write_cr4 val.
Definition __read_cr4 : M Z := gets hw_cr4.

(** Modelled from the spec: [invpcid_flush_all] (asm/invpcid.h) issues
    INVPCID of the all-contexts-including-globals type, which drops every
    translation. *)
Definition invpcid_flush_all : M unit :=
  modify (fun s => add_event EvInvpcidAll (set_hw_tlb (fun _ => []) s)).

(** Modelled from the spec: the [invlpg] instruction drops the
    translations of one page, those of the current PCID and the global
    ones. *)
Definition invlpg (addr : Z) : M unit :=
  modify (fun s =>
    let pcid := if cr4_pcide (hw_cr4 s)
                then Z.land (hw_cr3 s) CR3_PCID_MASK else 0 in
    let vpn := Z.shiftr addr PAGE_SHIFT in
    add_event (EvInvlpg addr)
      (set_hw_tlb
         (List.filter (fun e =>
            negb (Z.eqb (te_vpn e) vpn)
            || (negb (te_global e) && negb (Z.eqb (te_pcid e) pcid))))
         s)).

(** ** The header, function by function *)

(** [inc_mm_tlb_gen]: bump the generation count. *)
Definition inc_mm_tlb_gen (mm : mm_ptr) : M Z :=
  atomic64_inc_return_tlb_gen mm.

(** [kern_pcid]: ASID-aware code paths put the ASID+1 into the PCID bits.
    The sum is computed in [int] and returned as a [u16]. *)
Definition kern_pcid (asid : Z) : M Z :=
  VM_WARN_ON_ONCE WARN_kern_pcid_asid_range (Z.gtb asid MAX_ASID_AVAILABLE);;
  ret (u16 (asid + 1)).

Definition build_cr3 (pgd : pgd_ptr) (asid : Z) : M Z :=
  has_pcid ← static_cpu_has X86_FEATURE_PCID;
  if has_pcid then
    pa ← __sme_pa pgd;
    pcid ← kern_pcid asid;
    ret (Z.lor pa pcid)
  else
    VM_WARN_ON_ONCE WARN_build_cr3_asid_nonzero (negb (Z.eqb asid 0));;
    __sme_pa pgd.

(** [this_cpu_has] asks the executing CPU; the boot CPU's feature bits
    stand for it. *)
Definition this_cpu_has (f : x86_feature) : M bool := boot_cpu_has f.

Definition build_cr3_noflush (pgd : pgd_ptr) (asid : Z) : M Z :=
  VM_WARN_ON_ONCE WARN_build_cr3_noflush_asid_range
    (Z.gtb asid MAX_ASID_AVAILABLE);;
  has_pcid ← this_cpu_has X86_FEATURE_PCID;
  VM_WARN_ON_ONCE WARN_build_cr3_noflush_no_pcid (negb has_pcid);;
  pa ← __sme_pa pgd;
  pcid ← kern_pcid asid;
  ret (Z.lor (Z.lor pa pcid) CR3_NOFLUSH).

(** If we have PCID, switching to init_mm is reasonably fast; if we do
    not, it is quite slow, so it is deferred. *)
Definition tlb_defer_switch_to_init_mm : M bool :=
  has_pcid ← static_cpu_has X86_FEATURE_PCID;
  ret (negb has_pcid).

(** Initialize cr4 shadow for this CPU. *)
Definition cr4_init_shadow : M unit :=
  v ← __read_cr4;
  this_cpu_write_cr4 v.

Definition __cr4_set (v : Z) : M unit :=
  lockdep_assert_irqs_disabled;;
  this_cpu_write_cr4 v;;
  __write_cr4 v.

(** Set in this cpu's CR4. *)
Definition cr4_set_bits (mask : Z) : M unit :=
  flags ← local_irq_save;
  v ← this_cpu_read_cr4;
  when (negb (Z.eqb (Z.lor v mask) v)) (__cr4_set (Z.lor v mask));;
  local_irq_restore flags.

(** Clear in this cpu's CR4. *)
Definition cr4_clear_bits (mask : Z) : M unit :=
  flags ← local_irq_save;
  v ← this_cpu_read_cr4;
  when (negb (Z.eqb (Z.land v (not64 mask)) v)) (__cr4_set (Z.land v (not64 mask)));;
  local_irq_restore flags.

Definition cr4_toggle_bits_irqsoff (mask : Z) : M unit :=
  v ← this_cpu_read_cr4;
  __cr4_set (Z.lxor v mask).

(** Read the CR4 shadow. *)
Definition cr4_read_shadow : M Z := this_cpu_read_cr4.

(** flush the entire current user mapping *)
Definition __native_flush_tlb : M unit :=
  preempt_disable;;
  v ← __native_read_cr3;
  native_write_cr3 v;;
  preempt_enable.

(** flush everything *)
Definition __native_flush_tlb_global : M unit :=
  has_invpcid ← static_cpu_has X86_FEATURE_INVPCID;
  if has_invpcid then
    invpcid_flush_all
  else
    flags ← raw_local_irq_save;
    v ← this_cpu_read_cr4;
    (* toggle PGE *)
    native_write_cr4 (Z.lxor v X86_CR4_PGE);;
    (* write old PGE again and flush TLBs *)
    native_write_cr4 v;;
    raw_local_irq_restore flags.

(** flush one page in the user mapping *)
Definition __native_flush_tlb_single (addr : Z) : M unit := invlpg addr.

(** Without [CONFIG_PARAVIRT] the three flush primitives are the native
    ones. *)
Definition __flush_tlb : M unit := __native_flush_tlb.
Definition __flush_tlb_global : M unit := __native_flush_tlb_global.
Definition __flush_tlb_single (addr : Z) : M unit :=
  __native_flush_tlb_single addr.

(** flush everything *)
Definition __flush_tlb_all : M unit :=
  has_pge ← boot_cpu_has X86_FEATURE_PGE;
  if has_pge then __flush_tlb_global
  else
    (* !PGE -> !PCID (setup_pcid()), thus every flush is total. *)
    __flush_tlb.

Definition local_flush_tlb : M unit := __flush_tlb.

(** The flush entry points are stated over any implementation of the
    external [flush_tlb_mm_range] (arch/x86/mm/tlb.c). *)
Section FlushEntryPoints.

Variable flush_tlb_mm_range : mm_ptr -> Z -> Z -> Z -> M unit.

(** [#define flush_tlb_mm(mm) flush_tlb_mm_range(mm, 0UL, TLB_FLUSH_ALL, 0UL)] *)
Definition flush_tlb_mm (mm : mm_ptr) : M unit :=
  flush_tlb_mm_range mm 0 TLB_FLUSH_ALL 0.

(** [#define flush_tlb_range(vma, start, end)] *)
Definition flush_tlb_range (vma : vm_area_struct) (start end_ : Z) : M unit :=
  flush_tlb_mm_range (vm_mm vma) start end_ (vm_flags vma).

(** [a + PAGE_SIZE] is an [unsigned long] sum. *)
Definition flush_tlb_page (vma : vm_area_struct) (a : Z) : M unit :=
  flush_tlb_mm_range (vm_mm vma) a (u64 (a + PAGE_SIZE)) VM_NONE.

End FlushEntryPoints.

Definition arch_tlbbatch_add_mm (batch : arch_tlbflush_unmap_batch)
    (mm : mm_ptr) : M arch_tlbflush_unmap_batch :=
  inc_mm_tlb_gen mm;;
  mask ← mm_cpumask mm;
  ret (Build_arch_tlbflush_unmap_batch (cpumask_or (cpumask batch) mask)).

(** ** Successive calls

    Call sequences on the shared heap: each call is one step, whichever
    CPU issues it. *)

(** Bump the generation of each address space of [ps] in turn and collect
    what each call returned. *)
Fixpoint inc_mm_tlb_gen_seq (ps : list mm_ptr) : M (list (mm_ptr * Z)) :=
  match ps with
  | [] => ret []
  | p :: ps' =>
      g ← inc_mm_tlb_gen p;
      rest ← inc_mm_tlb_gen_seq ps';
      ret ((p, g) :: rest)
  end.

(** The values returned for address space [p], in call order. *)
Definition returns_for (p : mm_ptr) (rets : list (mm_ptr * Z)) : list Z :=
  (filter (fun r => r.1 = p) rets).*2.

(** How many of the calls were on [p]. *)
Definition calls_on (p : mm_ptr) (ps : list mm_ptr) : nat :=
  length (filter (fun q => q = p) ps).

(** Add each address space of [ps] to the batch in turn. *)
Fixpoint arch_tlbbatch_add_mms (batch : arch_tlbflush_unmap_batch)
    (ps : list mm_ptr) : M arch_tlbflush_unmap_batch :=
  match ps with
  | [] => ret batch
  | p :: ps' =>
      b ← arch_tlbbatch_add_mm batch p;
      arch_tlbbatch_add_mms b ps'
  end.

(** The stored generation of [p], if [p] is mapped. *)
Definition stored_gen (s : kstate) (p : mm_ptr) : option Z :=
  context_tlb_gen <$> mms s !! p.

(** The affinity set of [p]: the CPUs of [mm_cpumask(p)]. *)
Definition affinity_set (s : kstate) (p : mm_ptr) : gset cpu_id :=
  from_option cpu_bitmap ∅ (mms s !! p).

(** Nothing happened on the executing CPU between [s] and [s']: no
    instruction was issued and no assertion fired (the log is the same),
    and registers, TLB and per-CPU state are the same. *)
Definition cpu_untouched (s s' : kstate) : Prop :=
  klog s' = klog s
  /\ hw_tlb s' = hw_tlb s
  /\ hw_cr3 s' = hw_cr3 s
  /\ hw_cr4 s' = hw_cr4 s
  /\ cpu_tlbstate s' = cpu_tlbstate s
  /\ irqs_enabled s' = irqs_enabled s
  /\ preempt_count s' = preempt_count s.

(** What [__cr4_set(v)] leaves behind when it runs with interrupts off:
    the shadow and the register hold [v], the write is logged, and the TLB
    is dropped if the write changed CR4.PGE or cleared CR4.PCIDE. *)
Definition cr4_written (v : Z) (s : kstate) : kstate :=
  Build_kstate (cfg s) (mms s) (set_cr4 v (cpu_tlbstate s)) (hw_cr3 s) v
    (if cr4_write_flushes (hw_cr4 s) v then [] else hw_tlb s)
    (irqs_enabled s) (preempt_count s) (klog s ++ [EvWriteCR4 v]).

(** The instructions [__flush_tlb_all] issues, by CPU features. *)
Definition flush_all_instructions (s : kstate) : list event :=
  if boot_cpu_data (cfg s) X86_FEATURE_PGE then
    if boot_cpu_data (cfg s) X86_FEATURE_INVPCID then [EvInvpcidAll]
    else [EvWriteCR4 (Z.lxor (cr4 (cpu_tlbstate s)) X86_CR4_PGE);
          EvWriteCR4 (cr4 (cpu_tlbstate s))]
  else [EvWriteCR3 (hw_cr3 s)].

(** The values written to the CR4 register so far. *)
Definition cr4_writes (s : kstate) : list Z :=
  omap (fun e => match e with EvWriteCR4 v => Some v | _ => None end) (klog s).

(** Everything but the CR4 shadow, the CR4 register, the TLB and the log is
    the same in [s] and [s']. *)
Definition cr4_frame (s s' : kstate) : Prop :=
  cfg s' = cfg s /\ mms s' = mms s /\ hw_cr3 s' = hw_cr3 s
  /\ irqs_enabled s' = irqs_enabled s
  /\ preempt_count s' = preempt_count s
  /\ loaded_mm (cpu_tlbstate s') = loaded_mm (cpu_tlbstate s)
  /\ loaded_mm_asid (cpu_tlbstate s') = loaded_mm_asid (cpu_tlbstate s)
  /\ next_asid (cpu_tlbstate s') = next_asid (cpu_tlbstate s)
  /\ is_lazy (cpu_tlbstate s') = is_lazy (cpu_tlbstate s)
  /\ ctxs (cpu_tlbstate s') = ctxs (cpu_tlbstate s).

(** ** Concrete states *)

Definition cfg0 : config :=
  Build_config true true
    (fun f => match f with X86_FEATURE_INVPCID => false | _ => true end)
    (fun pgd => Z.of_nat pgd * PAGE_SIZE).

Definition tlb_state0 : tlb_state :=
  Build_tlb_state 0%nat 0 1 false X86_CR4_PGE
    (vreplicate TLB_NR_DYN_ASIDS (Build_tlb_context 0 0)).

(** Address space 1 has used up its generations, address space 2 is at
    generation 7. *)
Definition kstate0 : kstate :=
  Build_kstate cfg0
    (<[1%nat := Build_mm_struct 1 U64_MAX {[0%nat]}]>
       (<[2%nat := Build_mm_struct 2 7 {[1%nat; 2%nat]}]> ∅))
    tlb_state0 0 X86_CR4_PGE
    [Build_tlb_entry 0 true 5; Build_tlb_entry 0 false 6]
    true 0 [].

(** A CPU without PCID, PGE and INVPCID: CR4 has neither bit set and the
    TLB holds two non-global translations tagged with PCID 0. *)
Definition cfg_legacy : config :=
  Build_config true true (fun _ => false)
    (fun pgd => Z.of_nat pgd * PAGE_SIZE).

Definition kstate_legacy : kstate :=
  Build_kstate cfg_legacy (mms kstate0)
    (Build_tlb_state 0%nat 0 1 false 0
       (vreplicate TLB_NR_DYN_ASIDS (Build_tlb_context 0 0)))
    (2 * PAGE_SIZE) 0
    [Build_tlb_entry 0 false 5; Build_tlb_entry 0 false 6]
    true 0 [].

(** A configuration [setup_pcid()] rules out: PCID without PGE.  CR3 holds
    PCID 1 and the TLB also caches a translation of PCID 2. *)
Definition cfg_pcid_no_pge : config :=
  Build_config true true
    (fun f => match f with X86_FEATURE_PCID => true | _ => false end)
    (fun pgd => Z.of_nat pgd * PAGE_SIZE).

Definition kstate_pcid_no_pge : kstate :=
  Build_kstate cfg_pcid_no_pge (mms kstate0)
    (Build_tlb_state 0%nat 0 1 false X86_CR4_PCIDE
       (vreplicate TLB_NR_DYN_ASIDS (Build_tlb_context 0 0)))
    (Z.lor (2 * PAGE_SIZE) 1) X86_CR4_PCIDE
    [Build_tlb_entry 1 false 5; Build_tlb_entry 2 false 6]
    true 0 [].

(** An implementation of [flush_tlb_mm_range] that only records the call. *)
Definition record_flush_tlb_mm_range (mm : mm_ptr) (start end_ vmflag : Z)
    : M unit :=
  modify (add_event (EvFlushTlbMmRange mm start end_ vmflag)).

(** ** Well-formed processor states *)

(** The processor caches a translation as global only while CR4.PGE is
    set, and tags every translation with PCID 0 while CR4.PCIDE is clear. *)
Definition tlb_tags_ok (s : kstate) : bool :=
  (cr4_pge (hw_cr4 s) || forallb (fun e => negb (te_global e)) (hw_tlb s))
  && (cr4_pcide (hw_cr4 s)
      || forallb (fun e => Z.eqb (te_pcid e) 0) (hw_tlb s)).

(** CR4.PGE and CR4.PCIDE are only ever set on a CPU that has the
    feature. *)
Definition cr4_features_ok (s : kstate) : bool :=
  implb (cr4_pge (hw_cr4 s)) (boot_cpu_data (cfg s) X86_FEATURE_PGE)
  && implb (cr4_pcide (hw_cr4 s)) (boot_cpu_data (cfg s) X86_FEATURE_PCID).

(** The rule the comment in [__flush_tlb_all] relies on:
    [!PGE -> !PCID (setup_pcid())]. *)
Definition setup_pcid_rule (c : config) : bool :=
  implb (boot_cpu_data c X86_FEATURE_PCID) (boot_cpu_data c X86_FEATURE_PGE).

(** ** More of the header *)

Definition u32 (x : Z) : Z := wrap 32 x.

(** The boot-time record of the CR4 feature set: the global
    [mmu_cr4_features] and the cell the global pointer
    [trampoline_cr4_features] (a [u32 *]) points to, [None] for a null
    pointer. *)
Record boot_cr4 : Type := Build_boot_cr4 {
  mmu_cr4_features : Z;
  trampoline_cr4_features : option Z
}.

(** [cr4_set_bits_and_update_boot]: the store through the [u32] pointer
    truncates the [unsigned long]. *)
Definition cr4_set_bits_and_update_boot (mask : Z) (b : boot_cr4)
    : M boot_cr4 :=
  let features := Z.lor (mmu_cr4_features b) mask in
  let b' :=
    Build_boot_cr4 features
      (match trampoline_cr4_features b with
       | Some _ => Some (u32 features)
       | None => None
       end) in
  cr4_set_bits mask;;
  ret b'.

(** The operations of the header that act on the executing CPU. *)
Inductive cpu_op : Type :=
| OpCr4InitShadow
| OpCr4Set (v : Z)
| OpCr4SetBits (mask : Z)
| OpCr4ClearBits (mask : Z)
| OpCr4ToggleBitsIrqsoff (mask : Z)
| OpNativeFlushTlb
| OpNativeFlushTlbGlobal
| OpNativeFlushTlbSingle (addr : Z)
| OpFlushTlbAll.

Definition run_op (op : cpu_op) : M unit :=
  match op with
  | OpCr4InitShadow => cr4_init_shadow
  | OpCr4Set v => __cr4_set v
  | OpCr4SetBits mask => cr4_set_bits mask
  | OpCr4ClearBits mask => cr4_clear_bits mask
  | OpCr4ToggleBitsIrqsoff mask => cr4_toggle_bits_irqsoff mask
  | OpNativeFlushTlb => __native_flush_tlb
  | OpNativeFlushTlbGlobal => __native_flush_tlb_global
  | OpNativeFlushTlbSingle addr => __native_flush_tlb_single addr
  | OpFlushTlbAll => __flush_tlb_all
  end.

(** Run the operations of [ops] one after the other. *)
Fixpoint run_ops (ops : list cpu_op) : M unit :=
  match ops with
  | [] => ret tt
  | op :: ops' => run_op op;; run_ops ops'
  end.

(** The masks and values the operation passes are [unsigned long]s. *)
Definition op_args_u64 (op : cpu_op) : Prop :=
  match op with
  | OpCr4Set v => in_u64 v
  | OpCr4SetBits mask | OpCr4ClearBits mask | OpCr4ToggleBitsIrqsoff mask =>
      in_u64 mask
  | _ => True
  end.

(** The value has CR4.PGE and CR4.PCIDE set only if the CPU has the
    feature. *)
Definition cr4_value_ok (c : config) (v : Z) : bool :=
  implb (cr4_pge v) (boot_cpu_data c X86_FEATURE_PGE)
  && implb (cr4_pcide v) (boot_cpu_data c X86_FEATURE_PCID).

(** The operation asks for no CR4 bit of a feature the CPU lacks. *)
Definition op_features_ok (c : config) (op : cpu_op) : bool :=
  match op with
  | OpCr4Set v => cr4_value_ok c v
  | OpCr4SetBits mask | OpCr4ToggleBitsIrqsoff mask => cr4_value_ok c mask
  | _ => true
  end.

(** The CR4 shadow agrees with the CR4 register. *)
Definition shadow_coherent (s : kstate) : Prop :=
  cr4 (cpu_tlbstate s) = hw_cr4 s.

(** A well-formed CPU: coherent shadow, CR4 within the CPU's features, TLB
    tags consistent with CR4. *)
Definition cpu_wf (s : kstate) : Prop :=
  shadow_coherent s /\ cr4_features_ok s = true /\ tlb_tags_ok s = true.

(** The PCID the processor currently runs with. *)
Definition current_pcid (s : kstate) : Z :=
  if cr4_pcide (hw_cr4 s) then Z.land (hw_cr3 s) CR3_PCID_MASK else 0.

(** The debug assertions that have fired so far. *)
Definition warnings (s : kstate) : list warn_site :=
  omap (fun e => match e with EvWarn w => Some w | _ => None end) (klog s).

(** The state after a debug assertion that fires when [b] holds. *)
Definition warn_if (b : bool) (site : warn_site) (s : kstate) : kstate :=
  if b then add_event (EvWarn site) s else s.

(** A page-aligned address. *)
Definition page_aligned (a : Z) : Prop := a mod PAGE_SIZE = 0.

(** A state of the legacy CPU with an out-of-date shadow. *)
Definition kstate_stale : kstate :=
  set_hw_cr4 X86_CR4_PGE kstate_legacy.

(** * Properties *)

(** Unfold the monad's plumbing and compute. *)
Ltac run_monad :=
  unfold bind, ret, gets, modify, when; simpl.

(** ** Machine integers *)

Lemma u64_small (x : Z) : 0 <= x < 2 ^ 64 -> u64 x = x.
Proof. intros H. unfold u64, wrap. apply Z.mod_small. exact H. Qed.

Lemma u16_small (x : Z) : 0 <= x < 2 ^ 16 -> u16 x = x.
Proof. intros H. unfold u16, wrap. apply Z.mod_small. exact H. Qed.

(** [(x + d) - x] in [unsigned long] arithmetic. *)
Lemma u64_diff (x d : Z) : u64 (u64 (x + d) - x) = u64 d.
Proof.
  unfold u64, wrap. rewrite Zminus_mod_idemp_l. f_equal. lia.
Qed.

(** ** Generation counter *)

Lemma inc_mm_tlb_gen_eq (p : mm_ptr) (s : kstate) (m : mm_struct) :
  mms s !! p = Some m ->
  inc_mm_tlb_gen p s =
    Some (u64 (context_tlb_gen m + 1),
          set_mms <[p := Build_mm_struct (context_ctx_id m)
                           (u64 (context_tlb_gen m + 1)) (cpu_bitmap m)]> s).
Proof.
  intros Hp. unfold inc_mm_tlb_gen, atomic64_inc_return_tlb_gen.
  rewrite Hp. reflexivity.
Qed.

Lemma increasing_from (g : Z) (n : nat) :
  StronglySorted Z.lt ((fun i => g + Z.of_nat i) <$> seq 1 n).
Proof.
  generalize 1%nat as k. induction n as [|n IH]; intros k; simpl.
  - constructor.
  - constructor; [apply IH|].
    apply Forall_forall. intros x Hx.
    apply list_elem_of_fmap in Hx as (i & -> & Hi).
    apply elem_of_seq in Hi. lia.
Qed.

Lemma shift_from (g : Z) (n k : nat) :
  (fun i => g + 1 + Z.of_nat i) <$> seq k n
  = (fun i => g + Z.of_nat i) <$> seq (S k) n.
Proof.
  revert k. induction n as [|n IH]; intros k; simpl; [reflexivity|].
  f_equal; [lia | apply IH].
Qed.

Lemma inc_mm_tlb_gen_seq_spec (ps : list mm_ptr) :
  forall (p : mm_ptr) (s : kstate) (m : mm_struct),
    (forall q, q ∈ ps -> is_Some (mms s !! q)) ->
    mms s !! p = Some m ->
    0 <= context_tlb_gen m ->
    context_tlb_gen m + Z.of_nat (calls_on p ps) < 2 ^ 64 ->
    exists rets s',
      inc_mm_tlb_gen_seq ps s = Some (rets, s')
      /\ returns_for p rets
         = (fun i => context_tlb_gen m + Z.of_nat i) <$> seq 1 (calls_on p ps)
      /\ stored_gen s' p
         = Some (context_tlb_gen m + Z.of_nat (calls_on p ps)).
Proof.
  induction ps as [|q ps IH]; intros p s m Hvalid Hp Hpos Hroom.
  - exists [], s. split; [reflexivity|]. split; [reflexivity|].
    unfold stored_gen. rewrite Hp. simpl. f_equal. unfold calls_on. simpl. lia.
  - destruct (Hvalid q) as [mq Hq]; [left|].
    pose proof (inc_mm_tlb_gen_eq q s mq Hq) as Hstep.
    set (mq' := Build_mm_struct (context_ctx_id mq)
                  (u64 (context_tlb_gen mq + 1)) (cpu_bitmap mq)) in *.
    set (s1 := set_mms <[q := mq']> s) in *.
    assert (Hvalid1 : forall r, r ∈ ps -> is_Some (mms s1 !! r)).
    { intros r Hr. subst s1; simpl.
      destruct (decide (q = r)) as [->|Hne].
      - rewrite lookup_insert_eq. eauto.
      - rewrite lookup_insert_ne by done. apply Hvalid. by right. }
    destruct (decide (q = p)) as [->|Hne].
    + assert (mq = m) as -> by congruence.
      assert (Hcalls : calls_on p (p :: ps) = S (calls_on p ps)).
      { unfold calls_on. rewrite filter_cons_True by done. reflexivity. }
      rewrite Hcalls in Hroom |- *.
      assert (Hg : u64 (context_tlb_gen m + 1) = context_tlb_gen m + 1)
        by (apply u64_small; lia).
      assert (Hp1 : mms s1 !! p = Some mq')
        by (subst s1; simpl; apply lookup_insert_eq).
      destruct (IH p s1 mq' Hvalid1 Hp1) as (rets & s' & Hrun & Hrets & Hst).
      { subst mq'; simpl. lia. }
      { subst mq'; simpl. lia. }
      exists ((p, u64 (context_tlb_gen m + 1)) :: rets), s'.
      split; [|split].
      * simpl. unfold bind. rewrite Hstep, Hrun. reflexivity.
      * unfold returns_for in *. rewrite filter_cons_True by done.
        rewrite fmap_cons, Hrets. simpl.
        rewrite Hg. f_equal. apply shift_from.
      * rewrite Hst. subst mq'; simpl. f_equal. lia.
    + assert (Hcalls : calls_on p (q :: ps) = calls_on p ps).
      { unfold calls_on. rewrite filter_cons_False by done. reflexivity. }
      rewrite Hcalls in Hroom |- *.
      assert (Hp1 : mms s1 !! p = Some m)
        by (subst s1; simpl; rewrite lookup_insert_ne by done; exact Hp).
      destruct (IH p s1 m Hvalid1 Hp1 Hpos Hroom) as (rets & s' & Hrun & Hrets & Hst).
      exists ((q, u64 (context_tlb_gen mq + 1)) :: rets), s'.
      split; [|split].
      * simpl. unfold bind. rewrite Hstep, Hrun. reflexivity.
      * unfold returns_for in *. rewrite filter_cons_False by done. exact Hrets.
      * exact Hst.
Qed.

(** C1, as stated, fails where the 64-bit counter wraps: address space 1
    of [kstate0] holds generation [2^64 - 1]; the bump returns 0 and
    stores 0, so the returned generation is not above the previous one and
    the stored generation has decreased. *)
Lemma inc_mm_tlb_gen_wraps :
  stored_gen kstate0 1%nat = Some U64_MAX
  /\ fst <$> inc_mm_tlb_gen 1%nat kstate0 = Some 0
  /\ (fun r => stored_gen r.2 1%nat) <$> inc_mm_tlb_gen 1%nat kstate0
     = Some (Some 0)
  /\ ~ (forall (p : mm_ptr) (s : kstate) (m : mm_struct),
          mms s !! p = Some m ->
          in_u64 (context_tlb_gen m) ->
          exists g s' g',
            inc_mm_tlb_gen p s = Some (g, s')
            /\ context_tlb_gen m < g
            /\ stored_gen s' p = Some g'
            /\ context_tlb_gen m <= g').
Proof.
  assert (H1 : mms kstate0 !! 1%nat = Some (Build_mm_struct 1 U64_MAX {[0%nat]}))
    by (vm_compute; reflexivity).
  split; [vm_compute; reflexivity|].
  split; [vm_compute; reflexivity|].
  split; [vm_compute; reflexivity|].
  intros Hclaim.
  destruct (Hclaim 1%nat kstate0 _ H1) as (g & s' & g' & Hrun & Hlt & _).
  { simpl. unfold in_u64, U64_MAX. lia. }
  rewrite (inc_mm_tlb_gen_eq _ _ _ H1) in Hrun.
  injection Hrun as Hg _. subst g. simpl in Hlt.
  vm_compute in Hlt. discriminate Hlt.
Qed.

(** C1 (amended): [inc_mm_tlb_gen] is one atomic step that adds one to the
    address space's generation counter in [u64] arithmetic, returns the
    new stored value and touches nothing else; the new value is the old one
    plus one as long as the counter has not reached [2^64 - 1].
    Consequently, over any sequence of bumps (of this and of other address
    spaces, by whichever CPU) that does not take the counter of [p] past
    [2^64 - 1], the generations returned for [p] are [g+1, g+2, ..., g+n] in
    call order, hence strictly increasing and all above the initial
    generation [g], and the stored generation ends at [g+n], never below
    [g]. *)
Theorem inc_mm_tlb_gen_monotone (p : mm_ptr) (s : kstate) (m : mm_struct) :
  mms s !! p = Some m ->
  0 <= context_tlb_gen m ->
  (exists g s',
      inc_mm_tlb_gen p s = Some (g, s')
      /\ g = u64 (context_tlb_gen m + 1)
      /\ stored_gen s' p = Some g
      /\ (forall q, q <> p -> mms s' !! q = mms s !! q)
      /\ cpu_untouched s s')
  /\ (context_tlb_gen m + 1 < 2 ^ 64 ->
   inc_mm_tlb_gen p s =
     Some (context_tlb_gen m + 1,
           set_mms <[p := Build_mm_struct (context_ctx_id m)
                            (context_tlb_gen m + 1) (cpu_bitmap m)]> s))
  /\ (forall ps : list mm_ptr,
        (forall q, q ∈ ps -> is_Some (mms s !! q)) ->
        context_tlb_gen m + Z.of_nat (calls_on p ps) < 2 ^ 64 ->
        exists rets s',
          inc_mm_tlb_gen_seq ps s = Some (rets, s')
          /\ returns_for p rets
             = (fun i => context_tlb_gen m + Z.of_nat i)
                 <$> seq 1 (calls_on p ps)
          /\ StronglySorted Z.lt (returns_for p rets)
          /\ Forall (fun g => context_tlb_gen m < g) (returns_for p rets)
          /\ stored_gen s' p
             = Some (context_tlb_gen m + Z.of_nat (calls_on p ps))
          /\ context_tlb_gen m
             <= context_tlb_gen m + Z.of_nat (calls_on p ps)).
Proof.
  intros Hp Hpos. split; [|split].
  - eexists _, _. split; [apply (inc_mm_tlb_gen_eq p s m Hp)|].
    split; [reflexivity|]. split.
    { unfold stored_gen. simpl. rewrite lookup_insert_eq. reflexivity. }
    split; [|repeat split].
    intros q Hq. simpl. apply lookup_insert_ne. congruence.
  - intros Hroom. rewrite (inc_mm_tlb_gen_eq p s m Hp).
    rewrite u64_small by lia. reflexivity.
  - intros ps Hvalid Hroom.
    destruct (inc_mm_tlb_gen_seq_spec ps p s m Hvalid Hp Hpos Hroom)
      as (rets & s' & Hrun & Hrets & Hst).
    exists rets, s'. rewrite Hrets.
    repeat split; try assumption; try lia.
    + apply increasing_from.
    + apply Forall_forall. intros g Hg.
      apply list_elem_of_fmap in Hg as (i & -> & Hi).
      apply elem_of_seq in Hi. lia.
Qed.

Lemma inc_mm_tlb_gen_monotone_witness :
  inc_mm_tlb_gen 2%nat kstate0 =
    Some (8, set_mms <[2%nat := Build_mm_struct 2 8 {[1%nat; 2%nat]}]> kstate0)
  /\ exists rets s',
       inc_mm_tlb_gen_seq [2%nat; 1%nat; 2%nat] kstate0 = Some (rets, s')
       /\ returns_for 2%nat rets = [8; 9]
       /\ stored_gen s' 2%nat = Some 9.
Proof.
  assert (H2 : mms kstate0 !! 2%nat
               = Some (Build_mm_struct 2 7 {[1%nat; 2%nat]}))
    by (vm_compute; reflexivity).
  destruct (inc_mm_tlb_gen_monotone 2%nat kstate0 _ H2) as (_ & Hone & Hseq).
  { simpl. lia. }
  split.
  - apply Hone. simpl. lia.
  - destruct (Hseq [2%nat; 1%nat; 2%nat]) as (rets & s' & Hrun & Hrets & _ & _ & Hst & _).
    + intros q Hq. vm_compute in Hq.
      repeat (apply elem_of_cons in Hq as [->|Hq]; [vm_compute; eauto|]).
      by apply elem_of_nil in Hq.
    + vm_compute. reflexivity.
    + exists rets, s'. split; [exact Hrun|]. split; [exact Hrets| exact Hst].
Defined.

(** ** ASID slot table *)

(** C2: the per-CPU slot table [ctxs] is an array of exactly
    [TLB_NR_DYN_ASIDS = 6] entries, whatever the state; indexing it with an
    ASID yields an entry exactly for the ASIDs 0..5; and an entry is
    exactly a pair of a context identifier and a generation. *)
Theorem tlb_state_ctxs_fixed_capacity (ts : tlb_state) :
  TLB_NR_DYN_ASIDS = 6%nat
  /\ length (vec_to_list (ctxs ts)) = 6%nat
  /\ (forall asid : nat, is_Some (ctxs_at ts asid) <-> (asid < 6)%nat)
  /\ (forall asid : fin TLB_NR_DYN_ASIDS,
        ctxs_at ts (fin_to_nat asid) = Some (ctxs ts !!! asid))
  /\ (forall c : tlb_context, c = Build_tlb_context (ctx_id c) (tlb_gen c))
  /\ (forall id gen : Z,
        ctx_id (Build_tlb_context id gen) = id
        /\ tlb_gen (Build_tlb_context id gen) = gen).
Proof.
  split; [reflexivity|].
  split; [apply length_vec_to_list|].
  split.
  { intros asid. unfold ctxs_at. rewrite lookup_lt_is_Some.
    rewrite length_vec_to_list. reflexivity. }
  split.
  { intros asid. unfold ctxs_at. apply vlookup_lookup. reflexivity. }
  split; [intros [? ?]; reflexivity | intros; split; reflexivity].
Qed.

(** ** PCID encoding *)

Lemma kern_pcid_eq (asid : Z) (s : kstate) :
  kern_pcid asid s =
    Some (u16 (asid + 1),
          if CONFIG_DEBUG_VM (cfg s) && Z.gtb asid MAX_ASID_AVAILABLE
          then add_event (EvWarn WARN_kern_pcid_asid_range) s else s).
Proof.
  unfold kern_pcid, VM_WARN_ON_ONCE. run_monad.
  destruct (CONFIG_DEBUG_VM (cfg s) && Z.gtb asid MAX_ASID_AVAILABLE);
    reflexivity.
Qed.

Lemma MAX_ASID_AVAILABLE_val : MAX_ASID_AVAILABLE = 4094.
Proof. reflexivity. Qed.

Lemma kern_pcid_valid (asid : Z) (s : kstate) :
  0 <= asid <= MAX_ASID_AVAILABLE ->
  kern_pcid asid s = Some (asid + 1, s)
  /\ Z.land (asid + 1) CR3_PCID_MASK = asid + 1.
Proof.
  pose proof MAX_ASID_AVAILABLE_val as HM.
  intros Hr. rewrite kern_pcid_eq.
  replace (Z.gtb asid MAX_ASID_AVAILABLE) with false
    by (symmetry; rewrite Z.gtb_ltb; apply Z.ltb_ge; lia).
  rewrite andb_false_r, u16_small by lia.
  split; [reflexivity|].
  unfold CR3_PCID_MASK, CR3_HW_ASID_BITS.
  rewrite Z.land_ones by lia. apply Z.mod_small. lia.
Qed.

(** C3: for an ASID in the valid range, [kern_pcid] returns [asid + 1]
    without any assertion firing; that tag is never 0 and fits the 12 PCID
    bits of CR3, so slot 0 gets tag 1 and never the tag 0 of code that is
    not PCID-aware.  For an ASID above the range the debug assertion fires
    (in a debug build) and the function still returns [asid + 1] as a
    [u16]: there is no recovery path. *)
Theorem kern_pcid_tag (asid : Z) (s : kstate) :
  (0 <= asid <= MAX_ASID_AVAILABLE ->
   kern_pcid asid s = Some (asid + 1, s)
   /\ asid + 1 <> 0
   /\ 0 < asid + 1 < 2 ^ CR3_HW_ASID_BITS
   /\ Z.land (asid + 1) CR3_PCID_MASK = asid + 1)
  /\ kern_pcid 0 s = Some (1, s)
  /\ (MAX_ASID_AVAILABLE < asid < 2 ^ 16 ->
      kern_pcid asid s =
        Some (u16 (asid + 1),
              if CONFIG_DEBUG_VM (cfg s)
              then add_event (EvWarn WARN_kern_pcid_asid_range) s else s)).
Proof.
  pose proof MAX_ASID_AVAILABLE_val as HM.
  split; [|split].
  - intros Hr. destruct (kern_pcid_valid asid s Hr) as [Hrun Hfit].
    split; [exact Hrun|]. split; [lia|]. split; [|exact Hfit].
    unfold CR3_HW_ASID_BITS. lia.
  - rewrite kern_pcid_eq. rewrite andb_false_r. reflexivity.
  - intros Hr. rewrite kern_pcid_eq.
    replace (Z.gtb asid MAX_ASID_AVAILABLE) with true
      by (symmetry; rewrite Z.gtb_ltb; apply Z.ltb_lt; lia).
    rewrite andb_true_r. reflexivity.
Qed.

Lemma kern_pcid_tag_witness :
  kern_pcid 5 kstate0 = Some (6, kstate0)
  /\ kern_pcid 4095 kstate0
     = Some (4096, add_event (EvWarn WARN_kern_pcid_asid_range) kstate0)
  /\ kern_pcid 65535 kstate0
     = Some (0, add_event (EvWarn WARN_kern_pcid_asid_range) kstate0).
Proof.
  split; [|split].
  - apply (kern_pcid_tag 5 kstate0). vm_compute. split; discriminate.
  - apply (kern_pcid_tag 4095 kstate0). vm_compute. split; reflexivity.
  - apply (kern_pcid_tag 65535 kstate0). vm_compute. split; reflexivity.
Defined.

(** ** Deferring the switch to init_mm *)

(** C4: [tlb_defer_switch_to_init_mm] answers true exactly when the boot
    CPU lacks PCID, and changes nothing. *)
Theorem tlb_defer_switch_to_init_mm_iff (s : kstate) :
  exists b : bool,
    tlb_defer_switch_to_init_mm s = Some (b, s)
    /\ (b = true <-> boot_cpu_data (cfg s) X86_FEATURE_PCID = false)
    /\ (b = false <-> boot_cpu_data (cfg s) X86_FEATURE_PCID = true).
Proof.
  exists (negb (boot_cpu_data (cfg s) X86_FEATURE_PCID)).
  split; [reflexivity|].
  destruct (boot_cpu_data (cfg s) X86_FEATURE_PCID); simpl; split; split;
    congruence.
Qed.

(** ** Building CR3 *)

Lemma tag_embeds (pa tag : Z) :
  Z.land pa CR3_PCID_MASK = 0 ->
  Z.land tag CR3_PCID_MASK = tag ->
  Z.land (Z.lor pa tag) CR3_PCID_MASK = tag
  /\ Z.ldiff (Z.lor pa tag) CR3_PCID_MASK = pa.
Proof.
  intros Hpa Htag. split.
  - rewrite Z.land_lor_distr_l, Hpa, Htag. apply Z.lor_0_l.
  - apply Z.bits_inj'. intros i Hi.
    rewrite Z.ldiff_spec, Z.lor_spec.
    assert (Hb := f_equal (fun z => Z.testbit z i) Hpa).
    assert (Ht := f_equal (fun z => Z.testbit z i) Htag).
    simpl in Hb, Ht. rewrite Z.land_spec in Hb, Ht. rewrite Z.bits_0 in Hb.
    destruct (Z.testbit pa i), (Z.testbit tag i),
      (Z.testbit CR3_PCID_MASK i); simpl in *; congruence.
Qed.

(** C5: without PCID, [build_cr3] returns the bare page-table root
    [__sme_pa(pgd)] whatever the ASID, and its debug assertion fires exactly
    for a nonzero ASID; so a page-aligned root carries no tag bits.  With
    PCID, the result is the root or-ed with [kern_pcid(asid)]; for a valid
    ASID and a page-aligned root the PCID field of the result reads
    [asid + 1] and the rest is the root. *)
Theorem build_cr3_tag (pgd : pgd_ptr) (asid : Z) (s : kstate) :
  (boot_cpu_data (cfg s) X86_FEATURE_PCID = false ->
   build_cr3 pgd asid s =
     Some (sme_pa (cfg s) pgd,
           if CONFIG_DEBUG_VM (cfg s) && negb (Z.eqb asid 0)
           then add_event (EvWarn WARN_build_cr3_asid_nonzero) s else s)
   /\ (asid = 0 -> build_cr3 pgd asid s = Some (sme_pa (cfg s) pgd, s))
   /\ (Z.land (sme_pa (cfg s) pgd) CR3_PCID_MASK = 0 ->
       exists v s', build_cr3 pgd asid s = Some (v, s')
                    /\ Z.land v CR3_PCID_MASK = 0))
  /\ (boot_cpu_data (cfg s) X86_FEATURE_PCID = true ->
      (exists pcid s',
          kern_pcid asid s = Some (pcid, s')
          /\ build_cr3 pgd asid s
             = Some (Z.lor (sme_pa (cfg s) pgd) pcid, s'))
      /\ (0 <= asid <= MAX_ASID_AVAILABLE ->
          build_cr3 pgd asid s
          = Some (Z.lor (sme_pa (cfg s) pgd) (asid + 1), s)
          /\ (Z.land (sme_pa (cfg s) pgd) CR3_PCID_MASK = 0 ->
              Z.land (Z.lor (sme_pa (cfg s) pgd) (asid + 1)) CR3_PCID_MASK
              = asid + 1
              /\ Z.ldiff (Z.lor (sme_pa (cfg s) pgd) (asid + 1)) CR3_PCID_MASK
                 = sme_pa (cfg s) pgd))).
Proof.
  split.
  - intros Hno.
    assert (Heq : build_cr3 pgd asid s =
      Some (sme_pa (cfg s) pgd,
            if CONFIG_DEBUG_VM (cfg s) && negb (Z.eqb asid 0)
            then add_event (EvWarn WARN_build_cr3_asid_nonzero) s else s)).
    { unfold build_cr3, static_cpu_has, VM_WARN_ON_ONCE, __sme_pa. run_monad.
      rewrite Hno.
      destruct (CONFIG_DEBUG_VM (cfg s) && negb (Z.eqb asid 0)); reflexivity. }
    split; [exact Heq|]. split.
    + intros ->. rewrite Heq. simpl. rewrite andb_false_r. reflexivity.
    + intros Hal. eexists _, _. split; [exact Heq | exact Hal].
  - intros Hyes.
    assert (Heq : build_cr3 pgd asid s =
      Some (Z.lor (sme_pa (cfg s) pgd) (u16 (asid + 1)),
            if CONFIG_DEBUG_VM (cfg s) && Z.gtb asid MAX_ASID_AVAILABLE
            then add_event (EvWarn WARN_kern_pcid_asid_range) s else s)).
    { unfold build_cr3, static_cpu_has, __sme_pa. run_monad.
      rewrite Hyes, kern_pcid_eq. reflexivity. }
    split.
    + eexists _, _. split; [apply kern_pcid_eq | exact Heq].
    + intros Hr.
      destruct (kern_pcid_valid asid s Hr) as [Hrun Hfit].
      rewrite kern_pcid_eq in Hrun. injection Hrun as Hv Hs.
      rewrite Heq, Hv, Hs. split; [reflexivity|].
      intros Hal. apply tag_embeds; assumption.
Qed.

Lemma build_cr3_tag_witness :
  build_cr3 3%nat 5 kstate0 = Some (Z.lor (3 * PAGE_SIZE) 6, kstate0)
  /\ Z.land (Z.lor (3 * PAGE_SIZE) 6) CR3_PCID_MASK = 6
  /\ Z.ldiff (Z.lor (3 * PAGE_SIZE) 6) CR3_PCID_MASK = 3 * PAGE_SIZE.
Proof.
  destruct (build_cr3_tag 3%nat 5 kstate0) as [_ Hyes].
  destruct Hyes as [_ Hvalid]; [reflexivity|].
  destruct Hvalid as [Hrun Hbits]; [vm_compute; split; discriminate|].
  split; [exact Hrun|]. apply Hbits. reflexivity.
Defined.

(** ** Flush entry points *)

(** C6: [flush_tlb_page(vma, a)] is the call
    [flush_tlb_mm_range(vma->vm_mm, a, a + PAGE_SIZE, VM_NONE)] and nothing
    else, whatever [flush_tlb_mm_range] does; it is also [flush_tlb_range]
    on the same address space without flags.  The end is the
    [unsigned long] sum [a + PAGE_SIZE], so that the length [end - start] of
    the range, as an [unsigned long], is exactly one page for every [a]; and
    unless the sum wraps, the range is [a, a + PAGE_SIZE) as it reads. *)
Theorem flush_tlb_page_is_range
    (flush_tlb_mm_range : mm_ptr -> Z -> Z -> Z -> M unit)
    (vma : vm_area_struct) (a : Z) :
  flush_tlb_page flush_tlb_mm_range vma a
  = flush_tlb_mm_range (vm_mm vma) a (u64 (a + PAGE_SIZE)) VM_NONE
  /\ flush_tlb_page flush_tlb_mm_range vma a
     = flush_tlb_range flush_tlb_mm_range
         (Build_vm_area_struct (vm_mm vma) VM_NONE) a (u64 (a + PAGE_SIZE))
  /\ PAGE_SIZE = 4096
  /\ u64 (u64 (a + PAGE_SIZE) - a) = PAGE_SIZE
  /\ (0 <= a -> a + PAGE_SIZE < 2 ^ 64 ->
      u64 (a + PAGE_SIZE) = a + PAGE_SIZE
      /\ u64 (a + PAGE_SIZE) - a = PAGE_SIZE
      /\ flush_tlb_page flush_tlb_mm_range vma a
         = flush_tlb_mm_range (vm_mm vma) a (a + PAGE_SIZE) VM_NONE).
Proof.
  split; [reflexivity|]. split; [reflexivity|]. split; [reflexivity|].
  split; [apply u64_diff|].
  intros Ha Hroom.
  assert (Hend : u64 (a + PAGE_SIZE) = a + PAGE_SIZE).
  { apply u64_small. change PAGE_SIZE with 4096 in *. lia. }
  split; [exact Hend|]. split; [lia|].
  unfold flush_tlb_page. rewrite Hend. reflexivity.
Qed.

Lemma flush_tlb_page_is_range_witness :
  flush_tlb_page record_flush_tlb_mm_range
    (Build_vm_area_struct 2%nat 255) 4096 kstate0
  = Some (tt, add_event (EvFlushTlbMmRange 2%nat 4096 8192 0) kstate0).
Proof.
  destruct (flush_tlb_page_is_range record_flush_tlb_mm_range
              (Build_vm_area_struct 2%nat 255) 4096) as (_ & _ & _ & _ & H).
  destruct H as (_ & _ & ->); [lia | vm_compute; reflexivity |].
  reflexivity.
Defined.

Lemma TLB_FLUSH_ALL_val : TLB_FLUSH_ALL = 2 ^ 64 - 1.
Proof. reflexivity. Qed.

(** C7: [flush_tlb_mm(mm)] is [flush_tlb_mm_range(mm, 0, TLB_FLUSH_ALL, 0)],
    whatever [flush_tlb_mm_range] does.  [TLB_FLUSH_ALL] is [-1UL], the
    all-ones [unsigned long] [2^64 - 1], the largest address value; and a
    request ([struct flush_tlb_info]) whose end is [TLB_FLUSH_ALL] is a full
    flush, of the one address space when [mm] is set. *)
Theorem flush_tlb_mm_is_full_range
    (flush_tlb_mm_range : mm_ptr -> Z -> Z -> Z -> M unit) (mm : mm_ptr) :
  flush_tlb_mm flush_tlb_mm_range mm
  = flush_tlb_mm_range mm 0 TLB_FLUSH_ALL 0
  /\ TLB_FLUSH_ALL = u64 (- 1)
  /\ TLB_FLUSH_ALL = 2 ^ 64 - 1
  /\ TLB_FLUSH_ALL = Z.ones 64
  /\ (forall i, 0 <= i < 64 -> Z.testbit TLB_FLUSH_ALL i = true)
  /\ (forall x, in_u64 x -> x <= TLB_FLUSH_ALL)
  /\ (forall info : flush_tlb_info,
        fti_end info = TLB_FLUSH_ALL ->
        flush_info_kind info
        = Some (match fti_mm info with
                | Some _ => FullSingleMm
                | None => FullAllMms
                end))
  /\ (forall start gen : Z,
        flush_info_kind
          (Build_flush_tlb_info (Some mm) start TLB_FLUSH_ALL gen)
        = Some FullSingleMm)
  /\ (forall info : flush_tlb_info,
        flush_info_kind info = Some FullSingleMm ->
        fti_end info = TLB_FLUSH_ALL).
Proof.
  split; [reflexivity|]. split; [reflexivity|]. split; [reflexivity|].
  split; [reflexivity|].
  split.
  { intros i Hi. change TLB_FLUSH_ALL with (Z.ones 64).
    apply Z.ones_spec_low. lia. }
  split.
  { intros x [_ Hx]. rewrite TLB_FLUSH_ALL_val. lia. }
  split.
  { intros info Hend. unfold flush_info_kind. rewrite Hend, Z.eqb_refl.
    destruct (fti_mm info); reflexivity. }
  split.
  { intros start gen. reflexivity. }
  intros info. unfold flush_info_kind.
  destruct (fti_mm info); destruct (Z.eqb_spec (fti_end info) TLB_FLUSH_ALL);
    congruence.
Qed.

Lemma flush_tlb_mm_is_full_range_witness :
  flush_tlb_mm record_flush_tlb_mm_range 2%nat kstate0
  = Some (tt, add_event (EvFlushTlbMmRange 2%nat 0 (2 ^ 64 - 1) 0) kstate0)
  /\ flush_info_kind (Build_flush_tlb_info (Some 2%nat) 0 (2 ^ 64 - 1) 8)
     = Some FullSingleMm
  /\ 4096 <= TLB_FLUSH_ALL.
Proof.
  destruct (flush_tlb_mm_is_full_range record_flush_tlb_mm_range 2%nat)
    as (Hcall & _ & _ & _ & _ & Hmax & Hfull & _).
  split; [rewrite Hcall; reflexivity|].
  split.
  - apply (Hfull (Build_flush_tlb_info (Some 2%nat) 0 (2 ^ 64 - 1) 8)).
    reflexivity.
  - apply Hmax. unfold in_u64. lia.
Defined.

(** ** Batched unmap *)

Lemma cpu_untouched_refl (s : kstate) : cpu_untouched s s.
Proof. repeat split. Qed.

Lemma arch_tlbbatch_add_mm_eq (batch : arch_tlbflush_unmap_batch)
    (mm : mm_ptr) (s : kstate) (m : mm_struct) :
  mms s !! mm = Some m ->
  arch_tlbbatch_add_mm batch mm s =
    Some (Build_arch_tlbflush_unmap_batch (cpumask batch ∪ cpu_bitmap m),
          set_mms <[mm := Build_mm_struct (context_ctx_id m)
                             (u64 (context_tlb_gen m + 1)) (cpu_bitmap m)]> s).
Proof.
  intros Hm. unfold arch_tlbbatch_add_mm, bind.
  rewrite (inc_mm_tlb_gen_eq mm s m Hm).
  unfold mm_cpumask. simpl. rewrite lookup_insert_eq. reflexivity.
Qed.

Lemma affinity_set_bump (s : kstate) (q r : mm_ptr) (mq : mm_struct) (g : Z) :
  mms s !! q = Some mq ->
  affinity_set
    (set_mms <[q := Build_mm_struct (context_ctx_id mq) g (cpu_bitmap mq)]> s) r
  = affinity_set s r.
Proof.
  intros Hq. unfold affinity_set. simpl.
  destruct (decide (q = r)) as [<-|Hne].
  - rewrite lookup_insert_eq, Hq. reflexivity.
  - rewrite lookup_insert_ne by done. reflexivity.
Qed.

Lemma arch_tlbbatch_add_mms_spec (ps : list mm_ptr) :
  forall (batch : arch_tlbflush_unmap_batch) (s : kstate),
    (forall q, q ∈ ps -> is_Some (mms s !! q)) ->
    exists b' s',
      arch_tlbbatch_add_mms batch ps s = Some (b', s')
      /\ cpumask b' = cpumask batch ∪ ⋃ (affinity_set s <$> ps)
      /\ cpu_untouched s s'.
Proof.
  induction ps as [|q ps IH]; intros batch s Hvalid.
  - exists batch, s. split; [reflexivity|]. split; [|apply cpu_untouched_refl].
    simpl. symmetry. apply (right_id_L ∅ (∪)).
  - destruct (Hvalid q) as [mq Hq]; [left|].
    pose proof (arch_tlbbatch_add_mm_eq batch q s mq Hq) as Hstep.
    set (s1 := set_mms _ s) in Hstep.
    destruct (IH (Build_arch_tlbflush_unmap_batch (cpumask batch ∪ cpu_bitmap mq)) s1)
      as (b' & s' & Hrun & Hmask & Hcpu).
    { intros r Hr. subst s1; simpl.
      destruct (decide (q = r)) as [->|Hne].
      - rewrite lookup_insert_eq. eauto.
      - rewrite lookup_insert_ne by done. apply Hvalid. by right. }
    exists b', s'. split; [|split].
    + simpl. unfold bind. rewrite Hstep. exact Hrun.
    + rewrite Hmask. simpl.
      assert (Hq' : affinity_set s q = cpu_bitmap mq)
        by (unfold affinity_set; rewrite Hq; reflexivity).
      rewrite Hq'.
      assert (Hsame : affinity_set s1 <$> ps = affinity_set s <$> ps).
      { apply list_fmap_ext. intros _ r _. subst s1.
        apply affinity_set_bump. exact Hq. }
      rewrite Hsame. symmetry. apply (assoc_L (∪)).
    + exact Hcpu.
Qed.

(** C8: [arch_tlbbatch_add_mm] adds exactly one (in [u64] arithmetic) to
    the address space's generation counter and sets the batch's CPU mask to its union
    with the address space's affinity set; nothing else changes, in
    particular no instruction is issued on the executing CPU and its TLB is
    as before.  Over successive calls the mask is the initial mask joined
    with the affinity sets of all the address spaces added, so it never
    shrinks, and still nothing is flushed: whatever the external
    [arch_tlbbatch_flush] does when it is finally called with the
    accumulated batch is all that happens to the CPUs. *)
Theorem arch_tlbbatch_add_mm_accumulates
    (batch : arch_tlbflush_unmap_batch) (mm : mm_ptr) (s : kstate)
    (m : mm_struct) :
  mms s !! mm = Some m ->
  (exists b' s',
      arch_tlbbatch_add_mm batch mm s = Some (b', s')
      /\ s' = set_mms <[mm := Build_mm_struct (context_ctx_id m)
                                (u64 (context_tlb_gen m + 1)) (cpu_bitmap m)]> s
      /\ stored_gen s' mm = Some (u64 (context_tlb_gen m + 1))
      /\ u64 (u64 (context_tlb_gen m + 1) - context_tlb_gen m) = 1
      /\ (0 <= context_tlb_gen m < 2 ^ 64 - 1 ->
          stored_gen s' mm = Some (context_tlb_gen m + 1))
      /\ cpumask b' = cpumask batch ∪ affinity_set s mm
      /\ cpumask batch ⊆ cpumask b'
      /\ affinity_set s mm ⊆ cpumask b'
      /\ cpu_untouched s s')
  /\ (forall ps : list mm_ptr,
        (forall q, q ∈ ps -> is_Some (mms s !! q)) ->
        exists b' s',
          arch_tlbbatch_add_mms batch ps s = Some (b', s')
          /\ cpumask b' = cpumask batch ∪ ⋃ (affinity_set s <$> ps)
          /\ cpumask batch ⊆ cpumask b'
          /\ (forall q, q ∈ ps -> affinity_set s q ⊆ cpumask b')
          /\ cpu_untouched s s'
          /\ (forall arch_tlbbatch_flush : arch_tlbflush_unmap_batch -> M unit,
                bind (arch_tlbbatch_add_mms batch ps) arch_tlbbatch_flush s
                = arch_tlbbatch_flush b' s')).
Proof.
  intros Hm. split.
  - eexists _, _. split; [apply (arch_tlbbatch_add_mm_eq batch mm s m Hm)|].
    assert (Haff : affinity_set s mm = cpu_bitmap m)
      by (unfold affinity_set; rewrite Hm; reflexivity).
    split; [reflexivity|].
    assert (Hst : stored_gen
                    (set_mms <[mm := Build_mm_struct (context_ctx_id m)
                                       (u64 (context_tlb_gen m + 1))
                                       (cpu_bitmap m)]> s) mm
                  = Some (u64 (context_tlb_gen m + 1))).
    { unfold stored_gen. simpl. rewrite lookup_insert_eq. reflexivity. }
    split; [exact Hst|].
    split; [apply u64_diff|].
    split; [intros Hr; rewrite Hst, u64_small by lia; reflexivity|].
    rewrite Haff. simpl.
    split; [reflexivity|].
    split; [apply union_subseteq_l|]. split; [apply union_subseteq_r|].
    repeat split.
  - intros ps Hvalid.
    destruct (arch_tlbbatch_add_mms_spec ps batch s Hvalid)
      as (b' & s' & Hrun & Hmask & Hcpu).
    exists b', s'. split; [exact Hrun|]. split; [exact Hmask|].
    split; [rewrite Hmask; apply union_subseteq_l|].
    split; [|split; [exact Hcpu|]].
    + intros q Hq. rewrite Hmask.
      etrans; [|apply union_subseteq_r].
      intros c Hc. apply elem_of_union_list.
      exists (affinity_set s q). split; [|exact Hc].
      apply list_elem_of_fmap. eauto.
    + intros commit. unfold bind. rewrite Hrun. reflexivity.
Qed.

Lemma arch_tlbbatch_add_mm_accumulates_witness :
  exists b' s',
    arch_tlbbatch_add_mms (Build_arch_tlbflush_unmap_batch {[5%nat]})
      [2%nat; 1%nat; 2%nat] kstate0 = Some (b', s')
    /\ cpumask b' = {[5%nat]} ∪ ⋃ [{[1%nat; 2%nat]}; {[0%nat]}; {[1%nat; 2%nat]}]
    /\ klog s' = []
    /\ hw_tlb s' = hw_tlb kstate0.
Proof.
  assert (H2 : mms kstate0 !! 2%nat
               = Some (Build_mm_struct 2 7 {[1%nat; 2%nat]}))
    by (vm_compute; reflexivity).
  destruct (arch_tlbbatch_add_mm_accumulates
              (Build_arch_tlbflush_unmap_batch {[5%nat]}) 2%nat kstate0 _ H2)
    as [_ Hseq].
  destruct (Hseq [2%nat; 1%nat; 2%nat])
    as (b' & s' & Hrun & Hmask & _ & _ & (Hlog & Htlb & _) & _).
  - intros q Hq.
    repeat (apply elem_of_cons in Hq as [->|Hq]; [vm_compute; eauto|]).
    by apply elem_of_nil in Hq.
  - exists b', s'. split; [exact Hrun|]. split; [exact Hmask|].
    split; [exact Hlog | exact Htlb].
Defined.

(** ** Flushing everything *)

Lemma kstate_eta (s : kstate) :
  Build_kstate (cfg s) (mms s) (cpu_tlbstate s) (hw_cr3 s) (hw_cr4 s)
    (hw_tlb s) (irqs_enabled s) (preempt_count s) (klog s) = s.
Proof. destruct s; reflexivity. Qed.

Lemma toggle_pge_flushes (v : Z) :
  cr4_write_flushes (Z.lxor v X86_CR4_PGE) v = true.
Proof.
  unfold cr4_write_flushes, cr4_pge. rewrite Z.lxor_spec.
  change (Z.testbit X86_CR4_PGE X86_CR4_PGE_BIT) with true.
  destruct (Z.testbit v X86_CR4_PGE_BIT); reflexivity.
Qed.

Lemma cr3_write_drops_all (l : list tlb_entry) :
  forallb (fun e => negb (te_global e)) l = true ->
  forallb (fun e => Z.eqb (te_pcid e) 0) l = true ->
  List.filter (cr3_write_keeps 0) l = [].
Proof.
  induction l as [|e l IH]; simpl; [reflexivity|].
  intros [Hg Hgs]%andb_prop [Hp Hps]%andb_prop.
  unfold cr3_write_keeps at 1. rewrite Hp.
  apply negb_true_iff in Hg. rewrite Hg. simpl. apply IH; assumption.
Qed.

Lemma flush_tlb_global_spec (s : kstate) :
  exists s',
    __flush_tlb_global s = Some (tt, s')
    /\ hw_tlb s' = []
    /\ cfg s' = cfg s /\ mms s' = mms s
    /\ cpu_tlbstate s' = cpu_tlbstate s
    /\ irqs_enabled s' = irqs_enabled s
    /\ preempt_count s' = preempt_count s
    /\ klog s' = klog s ++
         (if boot_cpu_data (cfg s) X86_FEATURE_INVPCID then [EvInvpcidAll]
          else [EvWriteCR4 (Z.lxor (cr4 (cpu_tlbstate s)) X86_CR4_PGE);
                EvWriteCR4 (cr4 (cpu_tlbstate s))]).
Proof.
  unfold __flush_tlb_global, __native_flush_tlb_global, static_cpu_has,
    invpcid_flush_all, raw_local_irq_save, raw_local_irq_restore,
    local_irq_save, local_irq_restore, this_cpu_read_cr4, native_write_cr4.
  run_monad.
  destruct (boot_cpu_data (cfg s) X86_FEATURE_INVPCID); simpl.
  - eexists. split; [reflexivity|]. simpl. repeat split.
  - eexists. split; [reflexivity|]. simpl.
    rewrite toggle_pge_flushes. rewrite <- app_assoc. repeat split.
Qed.

Lemma flush_tlb_legacy_spec (s : kstate) :
  cr4_pcide (hw_cr4 s) = false ->
  forallb (fun e => negb (te_global e)) (hw_tlb s) = true ->
  forallb (fun e => Z.eqb (te_pcid e) 0) (hw_tlb s) = true ->
  exists s',
    __flush_tlb s = Some (tt, s')
    /\ hw_tlb s' = []
    /\ cfg s' = cfg s /\ mms s' = mms s
    /\ cpu_tlbstate s' = cpu_tlbstate s
    /\ irqs_enabled s' = irqs_enabled s
    /\ preempt_count s' = preempt_count s
    /\ klog s' = klog s ++ [EvWriteCR3 (hw_cr3 s)].
Proof.
  intros Hpcide Hng Hp0.
  unfold __flush_tlb, __native_flush_tlb, preempt_disable, preempt_enable,
    __native_read_cr3, native_write_cr3.
  run_monad. rewrite Hpcide. simpl.
  eexists. split; [reflexivity|]. simpl.
  split; [apply cr3_write_drops_all; assumption|].
  repeat split. lia.
Qed.

(** C9: [__flush_tlb_all] takes the global flush on a CPU with PGE and the
    ordinary flush on a CPU without; in a configuration that obeys
    [!PGE -> !PCID], on a well-formed processor state, either way the
    executing CPU ends with no cached translation at all.  The two paths
    differ only in the instructions issued: INVPCID or a pair of CR4
    writes toggling PGE in the first case, a reload of CR3 in the second. *)
Theorem flush_tlb_all_flushes_everything (s : kstate) :
  setup_pcid_rule (cfg s) = true ->
  cr4_features_ok s = true ->
  tlb_tags_ok s = true ->
  (boot_cpu_data (cfg s) X86_FEATURE_PGE = true ->
   __flush_tlb_all s = __flush_tlb_global s)
  /\ (boot_cpu_data (cfg s) X86_FEATURE_PGE = false ->
      boot_cpu_data (cfg s) X86_FEATURE_PCID = false
      /\ __flush_tlb_all s = __flush_tlb s)
  /\ exists s',
       __flush_tlb_all s = Some (tt, s')
       /\ hw_tlb s' = []
       /\ klog s' = klog s ++ flush_all_instructions s
       /\ cfg s' = cfg s /\ mms s' = mms s
       /\ cpu_tlbstate s' = cpu_tlbstate s
       /\ irqs_enabled s' = irqs_enabled s
       /\ preempt_count s' = preempt_count s.
Proof.
  unfold setup_pcid_rule, cr4_features_ok, tlb_tags_ok, flush_all_instructions.
  intros Hrule [Hf1 Hf2]%andb_prop [Ht1 Ht2]%andb_prop.
  assert (Hbranch : __flush_tlb_all s =
            if boot_cpu_data (cfg s) X86_FEATURE_PGE
            then __flush_tlb_global s else __flush_tlb s).
  { unfold __flush_tlb_all, boot_cpu_has. run_monad.
    destruct (boot_cpu_data (cfg s) X86_FEATURE_PGE); reflexivity. }
  rewrite Hbranch.
  destruct (boot_cpu_data (cfg s) X86_FEATURE_PGE) eqn:Hpge.
  - split; [reflexivity|]. split; [discriminate|].
    destruct (flush_tlb_global_spec s)
      as (s' & Hrun & Htlb & Hcfg & Hmms & Hts & Hirq & Hpre & Hlog).
    exists s'. repeat split; assumption.
  - destruct (boot_cpu_data (cfg s) X86_FEATURE_PCID) eqn:Hpcid;
      [discriminate Hrule|].
    split; [discriminate|]. split; [split; reflexivity|].
    destruct (cr4_pge (hw_cr4 s)); [discriminate Hf1|].
    destruct (cr4_pcide (hw_cr4 s)) eqn:Hpcide; [discriminate Hf2|].
    simpl in Ht1, Ht2.
    destruct (flush_tlb_legacy_spec s Hpcide Ht1 Ht2)
      as (s' & Hrun & Htlb & Hcfg & Hmms & Hts & Hirq & Hpre & Hlog).
    exists s'. repeat split; assumption.
Qed.

Lemma flush_tlb_all_flushes_everything_witness :
  (exists s', __flush_tlb_all kstate0 = Some (tt, s')
              /\ hw_tlb s' = []
              /\ klog s' = [EvWriteCR4 0; EvWriteCR4 X86_CR4_PGE])
  /\ (exists s', __flush_tlb_all kstate_legacy = Some (tt, s')
                 /\ hw_tlb s' = []
                 /\ klog s' = [EvWriteCR3 (2 * PAGE_SIZE)]).
Proof.
  split.
  - destruct (flush_tlb_all_flushes_everything kstate0)
      as (_ & _ & s' & Hrun & Htlb & Hlog & _); try reflexivity.
    exists s'. split; [exact Hrun|]. split; [exact Htlb | exact Hlog].
  - destruct (flush_tlb_all_flushes_everything kstate_legacy)
      as (_ & _ & s' & Hrun & Htlb & Hlog & _); try reflexivity.
    exists s'. split; [exact Hrun|]. split; [exact Htlb | exact Hlog].
Defined.

(** Why the rule is needed (the note at the end of [__flush_tlb_all]): with
    PCID but not PGE, the translations of the other ASIDs survive. *)
Example flush_tlb_all_pcid_without_pge :
  setup_pcid_rule (cfg kstate_pcid_no_pge) = false
  /\ (hw_tlb ∘ snd) <$> __flush_tlb_all kstate_pcid_no_pge
     = Some [Build_tlb_entry 2 false 6].
Proof. split; vm_compute; reflexivity. Qed.

(** ** The CR4 shadow *)

Lemma cr4_set_bits_eq (mask : Z) (s : kstate) :
  cr4_set_bits mask s =
    Some (tt, if Z.eqb (Z.lor (cr4 (cpu_tlbstate s)) mask) (cr4 (cpu_tlbstate s))
              then s
              else cr4_written (Z.lor (cr4 (cpu_tlbstate s)) mask) s).
Proof.
  unfold cr4_set_bits, __cr4_set, lockdep_assert_irqs_disabled,
    local_irq_save, local_irq_restore, this_cpu_read_cr4, this_cpu_write_cr4,
    __write_cr4, native_write_cr4.
  run_monad.
  destruct (Z.eqb (Z.lor (cr4 (cpu_tlbstate s)) mask) (cr4 (cpu_tlbstate s)));
    simpl.
  - unfold set_irqs_enabled. simpl. rewrite kstate_eta. reflexivity.
  - rewrite andb_false_r. reflexivity.
Qed.

Lemma cr4_clear_bits_eq (mask : Z) (s : kstate) :
  cr4_clear_bits mask s =
    Some (tt, if Z.eqb (Z.land (cr4 (cpu_tlbstate s)) (not64 mask))
                   (cr4 (cpu_tlbstate s))
              then s
              else cr4_written (Z.land (cr4 (cpu_tlbstate s)) (not64 mask)) s).
Proof.
  unfold cr4_clear_bits, __cr4_set, lockdep_assert_irqs_disabled,
    local_irq_save, local_irq_restore, this_cpu_read_cr4, this_cpu_write_cr4,
    __write_cr4, native_write_cr4.
  run_monad.
  destruct (Z.eqb (Z.land (cr4 (cpu_tlbstate s)) (not64 mask))
              (cr4 (cpu_tlbstate s))); simpl.
  - unfold set_irqs_enabled. simpl. rewrite kstate_eta. reflexivity.
  - rewrite andb_false_r. reflexivity.
Qed.

Lemma testbit_above_u64 (x i : Z) :
  in_u64 x -> 64 <= i -> Z.testbit x i = false.
Proof.
  intros Hx Hi. rewrite <- (Z.mod_small x (2 ^ 64)) by exact Hx.
  apply Z.mod_pow2_bits_high. lia.
Qed.

Lemma land_not64 (x mask : Z) :
  in_u64 x -> Z.land x (not64 mask) = Z.land x (Z.lnot mask).
Proof.
  intros Hx. apply Z.bits_inj'. intros i Hi.
  rewrite !Z.land_spec. unfold not64, u64, wrap.
  destruct (Z.lt_ge_cases i 64) as [Hlo|Hhi].
  - rewrite Z.mod_pow2_bits_low by lia. reflexivity.
  - rewrite (testbit_above_u64 x i Hx Hhi). reflexivity.
Qed.

Lemma land_not64_idem (x mask : Z) :
  Z.land (Z.land x (not64 mask)) (not64 mask) = Z.land x (not64 mask).
Proof. rewrite <- Z.land_assoc, Z.land_diag. reflexivity. Qed.

Lemma lor_idem (x mask : Z) : Z.lor (Z.lor x mask) mask = Z.lor x mask.
Proof. rewrite <- Z.lor_assoc, Z.lor_diag. reflexivity. Qed.

(** The shadow after a masked update to [v]: [v] whether or not a write
    was needed. *)
Lemma cr4_after_update (v : Z) (s : kstate) :
  cr4 (cpu_tlbstate
         (if Z.eqb v (cr4 (cpu_tlbstate s)) then s else cr4_written v s)) = v.
Proof.
  destruct (Z.eqb_spec v (cr4 (cpu_tlbstate s))) as [->|_]; reflexivity.
Qed.

Lemma cr4_update_props (v : Z) (s s1 : kstate) :
  s1 = (if Z.eqb v (cr4 (cpu_tlbstate s)) then s else cr4_written v s) ->
  cr4 (cpu_tlbstate s1) = v
  /\ (v = cr4 (cpu_tlbstate s) -> s1 = s /\ cr4_writes s1 = cr4_writes s)
  /\ (v <> cr4 (cpu_tlbstate s) ->
      s1 = cr4_written v s
      /\ hw_cr4 s1 = v
      /\ cr4_writes s1 = cr4_writes s ++ [v])
  /\ cr4_frame s s1.
Proof.
  intros ->. split; [apply cr4_after_update|].
  destruct (Z.eqb_spec v (cr4 (cpu_tlbstate s))) as [Heq|Hne].
  - split; [intros _; split; reflexivity|].
    split; [intros Hne; contradiction|]. repeat split.
  - split; [intros Heq; contradiction|].
    split; [|repeat split].
    intros _. split; [reflexivity|]. split; [reflexivity|].
    unfold cr4_writes, cr4_written. simpl. rewrite omap_app. reflexivity.
Qed.

(** C10: [cr4_set_bits(mask)] leaves the shadow at [old | mask] and
    [cr4_clear_bits(mask)] at [old & ~mask]; either way every bit outside
    [mask] keeps its value, and nothing but the shadow, the register, the
    TLB and the log can differ afterwards.  Both are idempotent.  When the
    update would not change the shadow, the state is left exactly as it
    was: CR4 is not written.  Otherwise the new value is written once, to
    the shadow and to the register. *)
Theorem cr4_set_clear_bits_frame (mask : Z) (s : kstate) :
  in_u64 (cr4 (cpu_tlbstate s)) ->
  (exists s1,
      cr4_set_bits mask s = Some (tt, s1)
      /\ cr4 (cpu_tlbstate s1) = Z.lor (cr4 (cpu_tlbstate s)) mask
      /\ (forall i, Z.testbit mask i = false ->
                    Z.testbit (cr4 (cpu_tlbstate s1)) i
                    = Z.testbit (cr4 (cpu_tlbstate s)) i)
      /\ cr4_set_bits mask s1 = Some (tt, s1)
      /\ (Z.lor (cr4 (cpu_tlbstate s)) mask = cr4 (cpu_tlbstate s) ->
          s1 = s /\ cr4_writes s1 = cr4_writes s)
      /\ (Z.lor (cr4 (cpu_tlbstate s)) mask <> cr4 (cpu_tlbstate s) ->
          s1 = cr4_written (Z.lor (cr4 (cpu_tlbstate s)) mask) s
          /\ hw_cr4 s1 = Z.lor (cr4 (cpu_tlbstate s)) mask
          /\ cr4_writes s1
             = cr4_writes s ++ [Z.lor (cr4 (cpu_tlbstate s)) mask])
      /\ cr4_frame s s1)
  /\ (exists s2,
        cr4_clear_bits mask s = Some (tt, s2)
        /\ cr4 (cpu_tlbstate s2) = Z.land (cr4 (cpu_tlbstate s)) (Z.lnot mask)
        /\ (forall i, Z.testbit mask i = false ->
                      Z.testbit (cr4 (cpu_tlbstate s2)) i
                      = Z.testbit (cr4 (cpu_tlbstate s)) i)
        /\ cr4_clear_bits mask s2 = Some (tt, s2)
        /\ (Z.land (cr4 (cpu_tlbstate s)) (Z.lnot mask) = cr4 (cpu_tlbstate s) ->
            s2 = s /\ cr4_writes s2 = cr4_writes s)
        /\ (Z.land (cr4 (cpu_tlbstate s)) (Z.lnot mask) <> cr4 (cpu_tlbstate s) ->
            s2 = cr4_written (Z.land (cr4 (cpu_tlbstate s)) (Z.lnot mask)) s
            /\ hw_cr4 s2 = Z.land (cr4 (cpu_tlbstate s)) (Z.lnot mask)
            /\ cr4_writes s2
               = cr4_writes s ++ [Z.land (cr4 (cpu_tlbstate s)) (Z.lnot mask)])
        /\ cr4_frame s s2).
Proof.
  intros Hold. split.
  - eexists. split; [apply cr4_set_bits_eq|].
    match goal with |- cr4 (cpu_tlbstate ?x) = _ /\ _ => set (s1 := x) end.
    destruct (cr4_update_props _ s s1 eq_refl) as (Hv & Hsame & Hdiff & Hframe).
    split; [exact Hv|]. split.
    { intros i Hi. rewrite Hv, Z.lor_spec, Hi. apply orb_false_r. }
    split.
    { rewrite cr4_set_bits_eq, Hv, lor_idem, Z.eqb_refl. reflexivity. }
    split; [exact Hsame|]. split; [exact Hdiff | exact Hframe].
  - rewrite <- (land_not64 _ mask Hold).
    eexists. split; [apply cr4_clear_bits_eq|].
    match goal with |- cr4 (cpu_tlbstate ?x) = _ /\ _ => set (s2 := x) end.
    destruct (cr4_update_props _ s s2 eq_refl) as (Hv & Hsame & Hdiff & Hframe).
    split; [exact Hv|]. split.
    { intros i Hi. rewrite Hv, (land_not64 _ mask Hold), Z.land_spec.
      destruct (Z.neg_nonneg_cases i) as [Hneg|Hpos].
      - rewrite !Z.testbit_neg_r by exact Hneg. reflexivity.
      - rewrite Z.lnot_spec by exact Hpos. rewrite Hi. apply andb_true_r. }
    split.
    { rewrite cr4_clear_bits_eq, Hv, land_not64_idem, Z.eqb_refl. reflexivity. }
    split; [exact Hsame|]. split; [exact Hdiff | exact Hframe].
Qed.

Lemma cr4_set_clear_bits_frame_witness :
  (exists s1, cr4_set_bits X86_CR4_PCIDE kstate0 = Some (tt, s1)
              /\ cr4 (cpu_tlbstate s1) = Z.lor X86_CR4_PGE X86_CR4_PCIDE
              /\ cr4_writes s1 = [Z.lor X86_CR4_PGE X86_CR4_PCIDE])
  /\ (exists s2, cr4_clear_bits X86_CR4_PCIDE kstate0 = Some (tt, s2)
                 /\ s2 = kstate0).
Proof.
  destruct (cr4_set_clear_bits_frame X86_CR4_PCIDE kstate0)
    as [(s1 & Hrun1 & Hv1 & _ & _ & _ & Hd1 & _)
        (s2 & Hrun2 & _ & _ & _ & Hs2 & _)].
  { vm_compute. split; [discriminate | reflexivity]. }
  split.
  - exists s1. split; [exact Hrun1|]. split; [exact Hv1|].
    apply Hd1. vm_compute. discriminate.
  - exists s2. split; [exact Hrun2|]. apply Hs2. reflexivity.
Defined.

(** * Further properties of the header *)

(** ** Bits *)

Lemma testbit_high (x n i : Z) :
  0 <= n -> 0 <= x < 2 ^ n -> n <= i -> Z.testbit x i = false.
Proof.
  intros Hn Hx Hi. rewrite <- (Z.mod_small x (2 ^ n)) by exact Hx.
  apply Z.mod_pow2_bits_high. lia.
Qed.

Lemma lor_bound (a b : Z) : 0 <= a -> 0 <= b -> 0 <= Z.lor a b <= a + b.
Proof.
  intros Ha Hb. pose proof (Z.add_lor_land a b) as Hsum.
  assert (0 <= Z.land a b) by (apply Z.land_nonneg; lia).
  assert (0 <= Z.lor a b) by (apply Z.lor_nonneg; lia).
  lia.
Qed.

Lemma aligned_mod (pa : Z) :
  Z.land pa CR3_PCID_MASK = 0 -> pa mod 4096 = 0.
Proof.
  unfold CR3_PCID_MASK, CR3_HW_ASID_BITS. rewrite Z.land_ones by lia.
  intros H. exact H.
Qed.

(** ** PCID encoding, continued *)

Lemma build_cr3_noflush_eq (pgd : pgd_ptr) (asid : Z) (s : kstate) :
  build_cr3_noflush pgd asid s =
    Some (Z.lor (Z.lor (sme_pa (cfg s) pgd) (u16 (asid + 1))) CR3_NOFLUSH,
          let dbg := CONFIG_DEBUG_VM (cfg s) in
          let above := Z.gtb asid MAX_ASID_AVAILABLE in
          warn_if (dbg && above) WARN_kern_pcid_asid_range
            (warn_if (dbg && negb (boot_cpu_data (cfg s) X86_FEATURE_PCID))
               WARN_build_cr3_noflush_no_pcid
               (warn_if (dbg && above) WARN_build_cr3_noflush_asid_range s))).
Proof.
  unfold build_cr3_noflush, kern_pcid, VM_WARN_ON_ONCE, this_cpu_has,
    boot_cpu_has, __sme_pa, warn_if.
  destruct s as [[dbg lockdep features pa] ? ? ? ? ? ? ? ?].
  run_monad.
  destruct dbg, (Z.gtb asid MAX_ASID_AVAILABLE),
    (features X86_FEATURE_PCID) eqn:Hpcid;
    simpl; rewrite ?Hpcid; reflexivity.
Qed.

Lemma build_cr3_pcid_eq (pgd : pgd_ptr) (asid : Z) (s : kstate) :
  boot_cpu_data (cfg s) X86_FEATURE_PCID = true ->
  build_cr3 pgd asid s =
    Some (Z.lor (sme_pa (cfg s) pgd) (u16 (asid + 1)),
          warn_if (CONFIG_DEBUG_VM (cfg s) && Z.gtb asid MAX_ASID_AVAILABLE)
            WARN_kern_pcid_asid_range s).
Proof.
  intros Hyes. unfold build_cr3, static_cpu_has, __sme_pa. run_monad.
  rewrite Hyes, kern_pcid_eq. reflexivity.
Qed.

Lemma not_above_max (asid : Z) :
  asid <= MAX_ASID_AVAILABLE -> Z.gtb asid MAX_ASID_AVAILABLE = false.
Proof. intros H. rewrite Z.gtb_ltb. apply Z.ltb_ge. exact H. Qed.

(** X1: on a CPU with PCID, for a valid ASID and a page-aligned root below
    [2^63], [build_cr3_noflush] fires no assertion and returns the value of
    [build_cr3] with bit 63 ([CR3_NOFLUSH]) added: bit 63 is set in the one
    and clear in the other, clearing it gives [build_cr3]'s value back, the
    PCID field still reads [asid + 1], and the value is an
    [unsigned long]. *)
Theorem build_cr3_noflush_adds_bit63 (pgd : pgd_ptr) (asid : Z) (s : kstate) :
  boot_cpu_data (cfg s) X86_FEATURE_PCID = true ->
  0 <= asid <= MAX_ASID_AVAILABLE ->
  Z.land (sme_pa (cfg s) pgd) CR3_PCID_MASK = 0 ->
  0 <= sme_pa (cfg s) pgd < 2 ^ 63 ->
  exists v,
    build_cr3 pgd asid s = Some (v, s)
    /\ build_cr3_noflush pgd asid s = Some (Z.lor v CR3_NOFLUSH, s)
    /\ Z.testbit v CR3_NOFLUSH_BIT = false
    /\ Z.testbit (Z.lor v CR3_NOFLUSH) CR3_NOFLUSH_BIT = true
    /\ Z.ldiff (Z.lor v CR3_NOFLUSH) CR3_NOFLUSH = v
    /\ Z.land (Z.lor v CR3_NOFLUSH) CR3_PCID_MASK = asid + 1
    /\ in_u64 (Z.lor v CR3_NOFLUSH).
Proof.
  intros Hpcid Hasid Hal Hpa.
  pose proof MAX_ASID_AVAILABLE_val as HM.
  destruct (kern_pcid_valid asid s Hasid) as [_ Hfit].
  destruct (tag_embeds _ _ Hal Hfit) as [Hfield _].
  set (pa := sme_pa (cfg s) pgd) in *.
  assert (Hv : 0 <= Z.lor pa (asid + 1) < 2 ^ 63).
  { pose proof (lor_bound pa (asid + 1)) as Hb.
    pose proof (aligned_mod pa Hal) as Hm.
    assert (pa <= 2 ^ 63 - 4096) by (Z.div_mod_to_equations; lia).
    lia. }
  assert (Hbit : Z.testbit (Z.lor pa (asid + 1)) CR3_NOFLUSH_BIT = false).
  { apply (testbit_high _ 63); [lia | exact Hv | unfold CR3_NOFLUSH_BIT; lia]. }
  exists (Z.lor pa (asid + 1)).
  split.
  { rewrite (build_cr3_pcid_eq _ _ _ Hpcid), not_above_max by lia.
    rewrite andb_false_r, u16_small by lia. reflexivity. }
  split.
  { rewrite build_cr3_noflush_eq. cbv zeta.
    rewrite not_above_max by lia. rewrite Hpcid, !andb_false_r.
    rewrite u16_small by lia. reflexivity. }
  split; [exact Hbit|].
  split.
  { rewrite Z.lor_spec. change (Z.testbit CR3_NOFLUSH CR3_NOFLUSH_BIT) with true.
    apply orb_true_r. }
  split.
  { apply Z.bits_inj'. intros i Hi.
    rewrite Z.ldiff_spec, Z.lor_spec.
    change CR3_NOFLUSH with (2 ^ 63). rewrite Z.pow2_bits_eqb by lia.
    destruct (Z.eqb_spec 63 i) as [<-|Hne].
    - change 63 with CR3_NOFLUSH_BIT. rewrite Hbit. reflexivity.
    - rewrite orb_false_r, andb_true_r. reflexivity. }
  split.
  { rewrite Z.land_lor_distr_l, Hfield.
    change (Z.land CR3_NOFLUSH CR3_PCID_MASK) with 0. apply Z.lor_0_r. }
  pose proof (lor_bound (Z.lor pa (asid + 1)) CR3_NOFLUSH) as Hb.
  change CR3_NOFLUSH with (2 ^ 63) in *. unfold in_u64. lia.
Qed.

Lemma build_cr3_noflush_adds_bit63_witness :
  build_cr3_noflush 3%nat 5 kstate0
  = Some (Z.lor (Z.lor (3 * PAGE_SIZE) 6) CR3_NOFLUSH, kstate0)
  /\ Z.ldiff (Z.lor (Z.lor (3 * PAGE_SIZE) 6) CR3_NOFLUSH) CR3_NOFLUSH
     = Z.lor (3 * PAGE_SIZE) 6.
Proof.
  destruct (build_cr3_noflush_adds_bit63 3%nat 5 kstate0)
    as (v & Hv & Hnf & _ & _ & Hclr & _).
  - reflexivity.
  - vm_compute. split; discriminate.
  - reflexivity.
  - vm_compute. split; [discriminate | reflexivity].
  - assert (v = Z.lor (3 * PAGE_SIZE) 6) as ->.
    { assert (Hc : build_cr3 3%nat 5 kstate0
                   = Some (Z.lor (3 * PAGE_SIZE) 6, kstate0))
        by (vm_compute; reflexivity).
      congruence. }
    split; [exact Hnf | exact Hclr].
Defined.

(** X2: on a CPU without PCID, [build_cr3_noflush] does not fall back to
    the bare root as [build_cr3] does: its assertion fires (in a debug
    build) and it still returns the root with the tag [asid + 1] and bit 63,
    so for a page-aligned root its PCID field is nonzero while that of
    [build_cr3]'s value is zero. *)
Theorem build_cr3_noflush_without_pcid (pgd : pgd_ptr) (asid : Z) (s : kstate) :
  boot_cpu_data (cfg s) X86_FEATURE_PCID = false ->
  0 <= asid <= MAX_ASID_AVAILABLE ->
  Z.land (sme_pa (cfg s) pgd) CR3_PCID_MASK = 0 ->
  build_cr3_noflush pgd asid s
  = Some (Z.lor (Z.lor (sme_pa (cfg s) pgd) (asid + 1)) CR3_NOFLUSH,
          warn_if (CONFIG_DEBUG_VM (cfg s)) WARN_build_cr3_noflush_no_pcid s)
  /\ Z.land (Z.lor (Z.lor (sme_pa (cfg s) pgd) (asid + 1)) CR3_NOFLUSH)
       CR3_PCID_MASK = asid + 1
  /\ asid + 1 <> 0
  /\ exists s', build_cr3 pgd asid s = Some (sme_pa (cfg s) pgd, s')
                /\ Z.land (sme_pa (cfg s) pgd) CR3_PCID_MASK = 0.
Proof.
  intros Hno Hasid Hal.
  pose proof MAX_ASID_AVAILABLE_val as HM.
  destruct (kern_pcid_valid asid s Hasid) as [_ Hfit].
  destruct (tag_embeds _ _ Hal Hfit) as [Hfield _].
  split.
  { rewrite build_cr3_noflush_eq. cbv zeta.
    rewrite not_above_max by lia. rewrite Hno, !andb_false_r, andb_true_r.
    rewrite u16_small by lia. reflexivity. }
  split.
  { rewrite Z.land_lor_distr_l, Hfield.
    change (Z.land CR3_NOFLUSH CR3_PCID_MASK) with 0. apply Z.lor_0_r. }
  split; [lia|].
  exists (warn_if (CONFIG_DEBUG_VM (cfg s) && negb (Z.eqb asid 0))
            WARN_build_cr3_asid_nonzero s).
  split; [|exact Hal].
  unfold build_cr3, static_cpu_has, VM_WARN_ON_ONCE, __sme_pa, warn_if.
  run_monad. rewrite Hno.
  destruct (CONFIG_DEBUG_VM (cfg s) && negb (Z.eqb asid 0)); reflexivity.
Qed.

Lemma build_cr3_noflush_without_pcid_witness :
  build_cr3_noflush 3%nat 5 kstate_legacy
  = Some (Z.lor (Z.lor (3 * PAGE_SIZE) 6) CR3_NOFLUSH,
          add_event (EvWarn WARN_build_cr3_noflush_no_pcid) kstate_legacy).
Proof.
  apply (build_cr3_noflush_without_pcid 3%nat 5 kstate_legacy).
  - reflexivity.
  - vm_compute. split; discriminate.
  - reflexivity.
Defined.

(** X3: the bound of the assertion in [kern_pcid] is exact.  For every
    [u16] ASID, the tag returned is a nonzero value that fits the 12 PCID
    bits of CR3 exactly when the ASID is at most [MAX_ASID_AVAILABLE], that
    is exactly when the assertion does not fire; the reserved tag 0 comes
    back only for the ASID [0xffff]; and different ASIDs get different
    tags. *)
Theorem kern_pcid_assertion_exact (asid : Z) (s : kstate) :
  in_u16 asid ->
  exists tag,
    kern_pcid asid s
    = Some (tag, warn_if (CONFIG_DEBUG_VM (cfg s)
                          && Z.gtb asid MAX_ASID_AVAILABLE)
                   WARN_kern_pcid_asid_range s)
    /\ in_u16 tag
    /\ (Z.gtb asid MAX_ASID_AVAILABLE = false
        <-> tag <> 0 /\ Z.land tag CR3_PCID_MASK = tag)
    /\ (tag = 0 <-> asid = 2 ^ 16 - 1)
    /\ (forall (asid' : Z) (s' : kstate),
          in_u16 asid' ->
          fst <$> kern_pcid asid' s' = Some tag -> asid' = asid).
Proof.
  intros Hin. unfold in_u16 in *.
  pose proof MAX_ASID_AVAILABLE_val as HM.
  exists (u16 (asid + 1)).
  split; [apply kern_pcid_eq|].
  assert (Htag : u16 (asid + 1)
                 = if Z.eqb asid (2 ^ 16 - 1) then 0 else asid + 1).
  { destruct (Z.eqb_spec asid (2 ^ 16 - 1)) as [->|Hne]; [reflexivity|].
    apply u16_small. lia. }
  split.
  { unfold u16, wrap. apply Z.mod_pos_bound. lia. }
  split.
  { rewrite Htag. unfold CR3_PCID_MASK, CR3_HW_ASID_BITS.
    rewrite Z.land_ones by lia. rewrite Z.gtb_ltb, Z.ltb_ge.
    destruct (Z.eqb_spec asid (2 ^ 16 - 1)) as [->|Hne].
    - split; [lia | intros [H0 _]; congruence].
    - split.
      + intros Hle. split; [lia|]. apply Z.mod_small. lia.
      + intros [_ Hfit]. apply Z.mod_small_iff in Hfit; lia. }
  split.
  { rewrite Htag. destruct (Z.eqb_spec asid (2 ^ 16 - 1)); lia. }
  intros asid' s' Hin' Hrun. rewrite kern_pcid_eq in Hrun. simpl in Hrun.
  injection Hrun as Hrun. unfold u16, wrap in Hrun.
  Z.div_mod_to_equations. lia.
Qed.

Lemma kern_pcid_assertion_exact_witness :
  exists tag,
    kern_pcid 4095 kstate0
    = Some (tag, add_event (EvWarn WARN_kern_pcid_asid_range) kstate0)
    /\ (tag <> 0 /\ Z.land tag CR3_PCID_MASK = tag -> False).
Proof.
  destruct (kern_pcid_assertion_exact 4095 kstate0)
    as (tag & Hrun & _ & Hiff & _).
  - vm_compute. split; [discriminate | reflexivity].
  - exists tag. split; [exact Hrun|].
    intros Hok. apply Hiff in Hok. vm_compute in Hok. discriminate Hok.
Defined.

(** X4: with PCID, [build_cr3] loses nothing: for valid ASIDs and
    page-aligned roots, two calls return the same value only for the same
    root and the same ASID, and the ASID is read back from the value as its
    PCID field minus one. *)
Theorem build_cr3_injective (pgd1 pgd2 : pgd_ptr) (asid1 asid2 : Z)
    (s : kstate) :
  boot_cpu_data (cfg s) X86_FEATURE_PCID = true ->
  0 <= asid1 <= MAX_ASID_AVAILABLE ->
  0 <= asid2 <= MAX_ASID_AVAILABLE ->
  Z.land (sme_pa (cfg s) pgd1) CR3_PCID_MASK = 0 ->
  Z.land (sme_pa (cfg s) pgd2) CR3_PCID_MASK = 0 ->
  exists v1 v2,
    build_cr3 pgd1 asid1 s = Some (v1, s)
    /\ build_cr3 pgd2 asid2 s = Some (v2, s)
    /\ Z.land v1 CR3_PCID_MASK - 1 = asid1
    /\ Z.ldiff v1 CR3_PCID_MASK = sme_pa (cfg s) pgd1
    /\ (v1 = v2 <-> sme_pa (cfg s) pgd1 = sme_pa (cfg s) pgd2 /\ asid1 = asid2).
Proof.
  intros Hpcid Ha1 Ha2 Hal1 Hal2.
  assert (Hrun : forall pgd asid, 0 <= asid <= MAX_ASID_AVAILABLE ->
            build_cr3 pgd asid s
            = Some (Z.lor (sme_pa (cfg s) pgd) (asid + 1), s)).
  { intros pgd asid Ha. pose proof MAX_ASID_AVAILABLE_val as HM.
    rewrite (build_cr3_pcid_eq _ _ _ Hpcid), not_above_max by lia.
    rewrite andb_false_r, u16_small by lia. reflexivity. }
  destruct (kern_pcid_valid asid1 s Ha1) as [_ Hfit1].
  destruct (kern_pcid_valid asid2 s Ha2) as [_ Hfit2].
  destruct (tag_embeds _ _ Hal1 Hfit1) as [Hf1 Hr1].
  destruct (tag_embeds _ _ Hal2 Hfit2) as [Hf2 Hr2].
  eexists _, _. split; [apply Hrun; exact Ha1|].
  split; [apply Hrun; exact Ha2|].
  split; [rewrite Hf1; lia|]. split; [exact Hr1|].
  split.
  - intros Heq. split.
    + rewrite <- Hr1, <- Hr2, Heq. reflexivity.
    + assert (asid1 + 1 = asid2 + 1) by (rewrite <- Hf1, <- Hf2, Heq; reflexivity).
      lia.
  - intros [-> ->]. reflexivity.
Qed.

Lemma build_cr3_injective_witness :
  exists v1 v2,
    build_cr3 3%nat 5 kstate0 = Some (v1, kstate0)
    /\ build_cr3 3%nat 4 kstate0 = Some (v2, kstate0)
    /\ v1 <> v2.
Proof.
  destruct (build_cr3_injective 3%nat 3%nat 5 4 kstate0)
    as (v1 & v2 & H1 & H2 & _ & _ & Hiff).
  - reflexivity.
  - vm_compute. split; discriminate.
  - vm_compute. split; discriminate.
  - reflexivity.
  - reflexivity.
  - exists v1, v2. split; [exact H1|]. split; [exact H2|].
    intros Heq. apply Hiff in Heq as [_ Heq]. discriminate Heq.
Defined.

(** ** The CR4 shadow, continued *)

Lemma cr4_set_eq (v : Z) (s : kstate) :
  __cr4_set v s =
    Some (tt, cr4_written v
                (warn_if (CONFIG_PROVE_LOCKING (cfg s) && irqs_enabled s)
                   WARN_cr4_set_irqs_enabled s)).
Proof.
  unfold __cr4_set, lockdep_assert_irqs_disabled, this_cpu_write_cr4,
    __write_cr4, native_write_cr4, warn_if.
  run_monad.
  destruct (CONFIG_PROVE_LOCKING (cfg s) && irqs_enabled s); reflexivity.
Qed.

Lemma cr4_toggle_bits_irqsoff_eq (mask : Z) (s : kstate) :
  cr4_toggle_bits_irqsoff mask s =
    Some (tt, cr4_written (Z.lxor (cr4 (cpu_tlbstate s)) mask)
                (warn_if (CONFIG_PROVE_LOCKING (cfg s) && irqs_enabled s)
                   WARN_cr4_set_irqs_enabled s)).
Proof.
  unfold cr4_toggle_bits_irqsoff, this_cpu_read_cr4. run_monad.
  apply cr4_set_eq.
Qed.

Lemma warn_if_fields (b : bool) (w : warn_site) (s : kstate) :
  cfg (warn_if b w s) = cfg s
  /\ mms (warn_if b w s) = mms s
  /\ cpu_tlbstate (warn_if b w s) = cpu_tlbstate s
  /\ hw_cr3 (warn_if b w s) = hw_cr3 s
  /\ hw_cr4 (warn_if b w s) = hw_cr4 s
  /\ hw_tlb (warn_if b w s) = hw_tlb s
  /\ irqs_enabled (warn_if b w s) = irqs_enabled s
  /\ preempt_count (warn_if b w s) = preempt_count s
  /\ klog (warn_if b w s) = klog s ++ (if b then [EvWarn w] else []).
Proof.
  destruct b; simpl; repeat split. symmetry. apply app_nil_r.
Qed.

Lemma lxor_involutive (v mask : Z) : Z.lxor (Z.lxor v mask) mask = v.
Proof. rewrite Z.lxor_assoc, Z.lxor_nilpotent. apply Z.lxor_0_r. Qed.

(** X5: [cr4_toggle_bits_irqsoff(mask)] always writes CR4, even for an
    empty mask: shadow and register both end at [old ^ mask], where every
    bit of [mask] is flipped and every other bit kept.  It leaves the
    interrupt flag alone, so the assertion of [__cr4_set] fires exactly when
    it is called with interrupts enabled (under [CONFIG_PROVE_LOCKING]).
    Toggling the same mask again puts shadow and register back to the old
    shadow. *)
Theorem cr4_toggle_bits_irqsoff_spec (mask : Z) (s : kstate) :
  exists s1,
    cr4_toggle_bits_irqsoff mask s = Some (tt, s1)
    /\ cr4 (cpu_tlbstate s1) = Z.lxor (cr4 (cpu_tlbstate s)) mask
    /\ hw_cr4 s1 = Z.lxor (cr4 (cpu_tlbstate s)) mask
    /\ (forall i, Z.testbit (cr4 (cpu_tlbstate s1)) i
                  = xorb (Z.testbit (cr4 (cpu_tlbstate s)) i) (Z.testbit mask i))
    /\ cr4_writes s1 = cr4_writes s ++ [Z.lxor (cr4 (cpu_tlbstate s)) mask]
    /\ irqs_enabled s1 = irqs_enabled s
    /\ warnings s1
       = warnings s ++
         (if CONFIG_PROVE_LOCKING (cfg s) && irqs_enabled s
          then [WARN_cr4_set_irqs_enabled] else [])
    /\ cr4_frame s s1
    /\ exists s2,
         cr4_toggle_bits_irqsoff mask s1 = Some (tt, s2)
         /\ cr4 (cpu_tlbstate s2) = cr4 (cpu_tlbstate s)
         /\ hw_cr4 s2 = cr4 (cpu_tlbstate s).
Proof.
  eexists. split; [apply cr4_toggle_bits_irqsoff_eq|].
  set (b := CONFIG_PROVE_LOCKING (cfg s) && irqs_enabled s).
  destruct (warn_if_fields b WARN_cr4_set_irqs_enabled s)
    as (Hcfg & Hmms & Hts & Hcr3 & Hcr4 & Htlb & Hirq & Hpre & Hlog).
  split; [reflexivity|].
  split; [reflexivity|].
  split; [intros i; simpl; apply Z.lxor_spec|].
  split.
  { unfold cr4_writes. simpl. rewrite Hlog, !omap_app. simpl.
    destruct b; simpl; rewrite ?app_nil_r; reflexivity. }
  split; [exact Hirq|].
  split.
  { unfold warnings. simpl. rewrite Hlog, !omap_app. simpl.
    rewrite app_nil_r. destruct b; reflexivity. }
  split.
  { unfold cr4_frame. simpl. rewrite Hcfg, Hmms, Hcr3, Hirq, Hpre, Hts.
    repeat split. }
  eexists. split; [apply cr4_toggle_bits_irqsoff_eq|].
  simpl. rewrite lxor_involutive. split; reflexivity.
Qed.

Lemma in_u64_of_bits (x : Z) :
  0 <= x -> (forall i, 64 <= i -> Z.testbit x i = false) -> in_u64 x.
Proof.
  intros Hpos Hhigh.
  assert (Hmod : x mod 2 ^ 64 = x).
  { apply Z.bits_inj'. intros i Hi. rewrite Z.testbit_mod_pow2 by lia.
    destruct (Z.ltb_spec i 64) as [Hlo|Hge]; [reflexivity|].
    rewrite Hhigh by exact Hge. reflexivity. }
  unfold in_u64. rewrite <- Hmod. apply Z.mod_pos_bound. lia.
Qed.

Lemma in_u64_lor (a b : Z) : in_u64 a -> in_u64 b -> in_u64 (Z.lor a b).
Proof.
  intros Ha Hb. apply in_u64_of_bits.
  - apply Z.lor_nonneg. unfold in_u64 in *. lia.
  - intros i Hi. rewrite Z.lor_spec.
    rewrite (testbit_above_u64 a i Ha Hi), (testbit_above_u64 b i Hb Hi).
    reflexivity.
Qed.

Lemma in_u64_lxor (a b : Z) : in_u64 a -> in_u64 b -> in_u64 (Z.lxor a b).
Proof.
  intros Ha Hb. apply in_u64_of_bits.
  - apply Z.lxor_nonneg. unfold in_u64 in *. lia.
  - intros i Hi. rewrite Z.lxor_spec.
    rewrite (testbit_above_u64 a i Ha Hi), (testbit_above_u64 b i Hb Hi).
    reflexivity.
Qed.

Lemma in_u64_land_l (a b : Z) : in_u64 a -> in_u64 (Z.land a b).
Proof.
  intros Ha. apply in_u64_of_bits.
  - apply Z.land_nonneg. left. unfold in_u64 in Ha. lia.
  - intros i Hi. rewrite Z.land_spec, (testbit_above_u64 a i Ha Hi).
    reflexivity.
Qed.

(** What the flush primitives do to CR4 and to the per-CPU state: the
    per-CPU state is untouched, and the register keeps its value or is
    reloaded from the shadow. *)
Lemma native_flush_tlb_cr4 (s : kstate) :
  exists s', __native_flush_tlb s = Some (tt, s')
             /\ cpu_tlbstate s' = cpu_tlbstate s /\ hw_cr4 s' = hw_cr4 s.
Proof.
  unfold __native_flush_tlb, preempt_disable, preempt_enable,
    __native_read_cr3, native_write_cr3.
  run_monad. eexists. split; [reflexivity|]. split; reflexivity.
Qed.

Lemma native_flush_tlb_global_cr4 (s : kstate) :
  exists s', __native_flush_tlb_global s = Some (tt, s')
             /\ cpu_tlbstate s' = cpu_tlbstate s
             /\ hw_cr4 s' = (if boot_cpu_data (cfg s) X86_FEATURE_INVPCID
                             then hw_cr4 s else cr4 (cpu_tlbstate s)).
Proof.
  unfold __native_flush_tlb_global, static_cpu_has, invpcid_flush_all,
    raw_local_irq_save, raw_local_irq_restore, local_irq_save,
    local_irq_restore, this_cpu_read_cr4, native_write_cr4.
  run_monad.
  destruct (boot_cpu_data (cfg s) X86_FEATURE_INVPCID); simpl;
    (eexists; split; [reflexivity|]; split; reflexivity).
Qed.

Lemma native_flush_tlb_single_cr4 (addr : Z) (s : kstate) :
  exists s', __native_flush_tlb_single addr s = Some (tt, s')
             /\ cpu_tlbstate s' = cpu_tlbstate s /\ hw_cr4 s' = hw_cr4 s.
Proof.
  unfold __native_flush_tlb_single, invlpg. run_monad.
  eexists. split; [reflexivity|]. split; reflexivity.
Qed.

Lemma flush_tlb_all_branch (s : kstate) :
  __flush_tlb_all s =
    if boot_cpu_data (cfg s) X86_FEATURE_PGE
    then __native_flush_tlb_global s else __native_flush_tlb s.
Proof.
  unfold __flush_tlb_all, boot_cpu_has. run_monad.
  destruct (boot_cpu_data (cfg s) X86_FEATURE_PGE); reflexivity.
Qed.

Lemma run_op_cr4 (op : cpu_op) (s : kstate) :
  exists s',
    run_op op s = Some (tt, s')
    /\ (shadow_coherent s -> shadow_coherent s')
    /\ (op_args_u64 op ->
        in_u64 (cr4 (cpu_tlbstate s)) -> in_u64 (hw_cr4 s) ->
        in_u64 (cr4 (cpu_tlbstate s')) /\ in_u64 (hw_cr4 s')).
Proof.
  unfold shadow_coherent.
  destruct op as [|v|mask|mask|mask| | |addr|]; simpl.
  - unfold cr4_init_shadow, __read_cr4, this_cpu_write_cr4. run_monad.
    eexists. split; [reflexivity|]. simpl. split; [reflexivity|]. tauto.
  - eexists. split; [apply cr4_set_eq|]. simpl. split; [reflexivity|]. tauto.
  - eexists. split; [apply cr4_set_bits_eq|].
    destruct (Z.eqb (Z.lor (cr4 (cpu_tlbstate s)) mask) (cr4 (cpu_tlbstate s)));
      simpl; [tauto|].
    split; [reflexivity|]. intros Hm Hs _.
    split; apply in_u64_lor; assumption.
  - eexists. split; [apply cr4_clear_bits_eq|].
    destruct (Z.eqb (Z.land (cr4 (cpu_tlbstate s)) (not64 mask))
                (cr4 (cpu_tlbstate s))); simpl; [tauto|].
    split; [reflexivity|]. intros _ Hs _.
    split; apply in_u64_land_l; assumption.
  - eexists. split; [apply cr4_toggle_bits_irqsoff_eq|]. simpl.
    split; [reflexivity|]. intros Hm Hs _.
    split; apply in_u64_lxor; assumption.
  - destruct (native_flush_tlb_cr4 s) as (s' & Hrun & Hts & Hhw).
    exists s'. rewrite Hts, Hhw. tauto.
  - destruct (native_flush_tlb_global_cr4 s) as (s' & Hrun & Hts & Hhw).
    exists s'. rewrite Hts, Hhw.
    destruct (boot_cpu_data (cfg s) X86_FEATURE_INVPCID); tauto.
  - destruct (native_flush_tlb_single_cr4 addr s) as (s' & Hrun & Hts & Hhw).
    exists s'. rewrite Hts, Hhw. tauto.
  - rewrite flush_tlb_all_branch.
    destruct (boot_cpu_data (cfg s) X86_FEATURE_PGE).
    + destruct (native_flush_tlb_global_cr4 s) as (s' & Hrun & Hts & Hhw).
      exists s'. rewrite Hts, Hhw.
      destruct (boot_cpu_data (cfg s) X86_FEATURE_INVPCID); tauto.
    + destruct (native_flush_tlb_cr4 s) as (s' & Hrun & Hts & Hhw).
      exists s'. rewrite Hts, Hhw. tauto.
Qed.

(** X6: the CR4 shadow is kept coherent with the register.
    [cr4_init_shadow] makes the shadow equal to the register from any
    state.  From then on every sequence of the header's CPU operations
    ([__cr4_set], [cr4_set_bits], [cr4_clear_bits],
    [cr4_toggle_bits_irqsoff], the flush primitives, [__flush_tlb_all]) runs
    to completion and ends with the shadow equal to the register, so that
    [cr4_read_shadow] returns the register's value; and if the masks are
    [unsigned long]s, shadow and register stay [unsigned long]s. *)
Theorem cr4_shadow_invariant (ops : list cpu_op) (s : kstate) :
  (exists s0,
      cr4_init_shadow s = Some (tt, s0)
      /\ shadow_coherent s0
      /\ hw_cr4 s0 = hw_cr4 s
      /\ cr4_read_shadow s0 = Some (hw_cr4 s, s0))
  /\ (shadow_coherent s ->
      exists s',
        run_ops ops s = Some (tt, s')
        /\ shadow_coherent s'
        /\ cr4_read_shadow s' = Some (hw_cr4 s', s')
        /\ (Forall op_args_u64 ops -> in_u64 (hw_cr4 s) ->
            in_u64 (cr4 (cpu_tlbstate s')) /\ in_u64 (hw_cr4 s'))).
Proof.
  split.
  - unfold cr4_init_shadow, __read_cr4, this_cpu_write_cr4, cr4_read_shadow,
      this_cpu_read_cr4, shadow_coherent.
    run_monad. eexists. split; [reflexivity|]. simpl. repeat split.
  - revert s. induction ops as [|op ops IH]; intros s Hco.
    + exists s. split; [reflexivity|]. split; [exact Hco|].
      split.
      { unfold cr4_read_shadow, this_cpu_read_cr4, gets. rewrite Hco.
        reflexivity. }
      intros _ Hhw. unfold shadow_coherent in Hco. rewrite Hco. tauto.
    + destruct (run_op_cr4 op s) as (s1 & Hop & Hco1 & Hr1).
      destruct (IH s1 (Hco1 Hco)) as (s' & Hrun & Hco' & Hread & Hr').
      exists s'. split; [simpl; unfold bind; rewrite Hop; exact Hrun|].
      split; [exact Hco'|]. split; [exact Hread|].
      intros Hargs Hhw. inversion Hargs as [|? ? Harg Hrest]; subst.
      apply Hr'; [exact Hrest|].
      apply Hr1; [exact Harg | | exact Hhw].
      unfold shadow_coherent in Hco. rewrite Hco. exact Hhw.
Qed.

Lemma cr4_shadow_invariant_witness :
  exists s',
    run_ops [OpCr4SetBits X86_CR4_PCIDE; OpFlushTlbAll;
             OpCr4ToggleBitsIrqsoff X86_CR4_PGE; OpCr4ClearBits X86_CR4_PCIDE]
      kstate0 = Some (tt, s')
    /\ shadow_coherent s'
    /\ in_u64 (hw_cr4 s').
Proof.
  destruct (cr4_shadow_invariant
              [OpCr4SetBits X86_CR4_PCIDE; OpFlushTlbAll;
               OpCr4ToggleBitsIrqsoff X86_CR4_PGE; OpCr4ClearBits X86_CR4_PCIDE]
              kstate0) as [_ Hinv].
  destruct Hinv as (s' & Hrun & Hco & _ & Hrange); [reflexivity|].
  exists s'. split; [exact Hrun|]. split; [exact Hco|].
  apply Hrange.
  - repeat constructor; vm_compute; try discriminate; reflexivity.
  - vm_compute. split; [discriminate | reflexivity].
Defined.

Lemma not64_spec (m i : Z) :
  0 <= i -> Z.testbit (not64 m) i = (i <? 64) && negb (Z.testbit m i).
Proof.
  intros Hi. unfold not64, u64, wrap.
  rewrite Z.testbit_mod_pow2 by lia. rewrite Z.lnot_spec by exact Hi.
  reflexivity.
Qed.

Lemma high_bit_false (x i : Z) :
  in_u64 x -> 0 <= i -> Z.testbit x i = (i <? 64) && Z.testbit x i.
Proof.
  intros Hx Hi. destruct (Z.ltb_spec i 64) as [Hlo|Hge]; [reflexivity|].
  apply testbit_above_u64; assumption.
Qed.

Lemma cr4_set_bits_shadow (mask : Z) (s : kstate) :
  exists s', cr4_set_bits mask s = Some (tt, s')
             /\ cr4 (cpu_tlbstate s') = Z.lor (cr4 (cpu_tlbstate s)) mask.
Proof.
  eexists. split; [apply cr4_set_bits_eq | apply cr4_after_update].
Qed.

Lemma cr4_clear_bits_shadow (mask : Z) (s : kstate) :
  exists s', cr4_clear_bits mask s = Some (tt, s')
             /\ cr4 (cpu_tlbstate s')
                = Z.land (cr4 (cpu_tlbstate s)) (not64 mask).
Proof.
  eexists. split; [apply cr4_clear_bits_eq | apply cr4_after_update].
Qed.

(** Solve an equation between bitwise expressions, bit by bit; [Hx] says
    that the old shadow is an [unsigned long]. *)
Ltac solve_bits Hx :=
  apply Z.bits_inj'; intros ?i ?Hi;
  repeat first
    [ rewrite Z.land_spec | rewrite Z.lor_spec
    | rewrite not64_spec by assumption
    | rewrite Z.lnot_spec by assumption ];
  match goal with
  | Hi : 0 <= ?i |- _ =>
      try rewrite (high_bit_false _ i Hx Hi);
      destruct (i <? 64)
  end;
  repeat match goal with
         | |- context [Z.testbit ?a ?i] => destruct (Z.testbit a i)
         end;
  reflexivity.

(** X7: how [cr4_set_bits] and [cr4_clear_bits] compose on the shadow (an
    [unsigned long]).  Setting two masks in a row sets their union, and
    clearing two masks clears their union; clearing a mask just set, or
    setting one just cleared, gives what the second call alone would give:
    the last call wins.  Setting one mask and clearing a disjoint one
    commute. *)
Theorem cr4_set_clear_compose (m1 m2 : Z) (s : kstate) :
  in_u64 (cr4 (cpu_tlbstate s)) ->
  (exists s', bind (cr4_set_bits m1) (fun _ => cr4_set_bits m2) s = Some (tt, s')
              /\ cr4 (cpu_tlbstate s')
                 = Z.lor (cr4 (cpu_tlbstate s)) (Z.lor m1 m2))
  /\ (exists s', bind (cr4_clear_bits m1) (fun _ => cr4_clear_bits m2) s
                 = Some (tt, s')
                 /\ cr4 (cpu_tlbstate s')
                    = Z.land (cr4 (cpu_tlbstate s)) (Z.lnot (Z.lor m1 m2)))
  /\ (exists s', bind (cr4_set_bits m1) (fun _ => cr4_clear_bits m1) s
                 = Some (tt, s')
                 /\ cr4 (cpu_tlbstate s')
                    = Z.land (cr4 (cpu_tlbstate s)) (Z.lnot m1))
  /\ (exists s', bind (cr4_clear_bits m1) (fun _ => cr4_set_bits m1) s
                 = Some (tt, s')
                 /\ cr4 (cpu_tlbstate s') = Z.lor (cr4 (cpu_tlbstate s)) m1)
  /\ (in_u64 m1 -> Z.land m1 m2 = 0 ->
      exists s' s'',
        bind (cr4_set_bits m1) (fun _ => cr4_clear_bits m2) s = Some (tt, s')
        /\ bind (cr4_clear_bits m2) (fun _ => cr4_set_bits m1) s = Some (tt, s'')
        /\ cr4 (cpu_tlbstate s') = cr4 (cpu_tlbstate s'')
        /\ cr4 (cpu_tlbstate s')
           = Z.lor (Z.land (cr4 (cpu_tlbstate s)) (Z.lnot m2)) m1).
Proof.
  intros Hold. set (old := cr4 (cpu_tlbstate s)) in *.
  destruct (cr4_set_bits_shadow m1 s) as (sa & Ha & Hsa).
  destruct (cr4_clear_bits_shadow m1 s) as (sb & Hb & Hsb).
  destruct (cr4_clear_bits_shadow m2 s) as (sc & Hc & Hsc).
  fold old in Hsa, Hsb, Hsc.
  split; [|split; [|split; [|split]]].
  - destruct (cr4_set_bits_shadow m2 sa) as (s' & Hrun & Hs').
    exists s'. unfold bind. rewrite Ha. split; [exact Hrun|].
    rewrite Hs', Hsa. symmetry. apply Z.lor_assoc.
  - destruct (cr4_clear_bits_shadow m2 sb) as (s' & Hrun & Hs').
    exists s'. unfold bind. rewrite Hb. split; [exact Hrun|].
    rewrite Hs', Hsb. solve_bits Hold.
  - destruct (cr4_clear_bits_shadow m1 sa) as (s' & Hrun & Hs').
    exists s'. unfold bind. rewrite Ha. split; [exact Hrun|].
    rewrite Hs', Hsa. solve_bits Hold.
  - destruct (cr4_set_bits_shadow m1 sb) as (s' & Hrun & Hs').
    exists s'. unfold bind. rewrite Hb. split; [exact Hrun|].
    rewrite Hs', Hsb. solve_bits Hold.
  - intros Hm1 Hdisj.
    destruct (cr4_clear_bits_shadow m2 sa) as (s' & Hrun' & Hs').
    destruct (cr4_set_bits_shadow m1 sc) as (s'' & Hrun'' & Hs'').
    exists s', s''. unfold bind. rewrite Ha, Hc.
    split; [exact Hrun'|]. split; [exact Hrun''|].
    assert (Hbits : forall i, 0 <= i ->
              Z.testbit m1 i = true ->
              (i <? 64) = true /\ Z.testbit m2 i = false).
    { intros i Hi H1. split.
      - destruct (Z.ltb_spec i 64) as [|Hge]; [reflexivity|].
        rewrite (testbit_above_u64 m1 i Hm1 Hge) in H1. discriminate.
      - assert (Hz := f_equal (fun z => Z.testbit z i) Hdisj). simpl in Hz.
        rewrite Z.land_spec, H1, Z.bits_0 in Hz. exact Hz. }
    assert (Hval : Z.land (Z.lor old m1) (not64 m2)
                   = Z.lor (Z.land old (Z.lnot m2)) m1).
    { apply Z.bits_inj'. intros i Hi.
      rewrite Z.land_spec, !Z.lor_spec, Z.land_spec, not64_spec,
        Z.lnot_spec by exact Hi.
      rewrite (high_bit_false old i Hold Hi).
      destruct (Z.testbit m1 i) eqn:E1.
      - destruct (Hbits i Hi E1) as [-> ->].
        destruct (Z.testbit old i); reflexivity.
      - destruct (i <? 64), (Z.testbit old i), (Z.testbit m2 i); reflexivity. }
    rewrite Hs', Hsa, Hs'', Hsc, Hval. split; [|reflexivity].
    f_equal. solve_bits Hold.
Qed.

Lemma cr4_set_clear_compose_witness :
  exists s',
    bind (cr4_set_bits X86_CR4_PCIDE) (fun _ => cr4_clear_bits X86_CR4_PCIDE)
      kstate0 = Some (tt, s')
    /\ cr4 (cpu_tlbstate s') = X86_CR4_PGE.
Proof.
  destruct (cr4_set_clear_compose X86_CR4_PCIDE 0 kstate0)
    as (_ & _ & (s' & Hrun & Hs') & _).
  - vm_compute. split; [discriminate | reflexivity].
  - exists s'. split; [exact Hrun | exact Hs'].
Defined.

(** ** The flush primitives *)

Lemma ldiff_noflush (v : Z) :
  Z.testbit v CR3_NOFLUSH_BIT = false -> Z.ldiff v CR3_NOFLUSH = v.
Proof.
  intros Hbit. apply Z.bits_inj'. intros i Hi. rewrite Z.ldiff_spec.
  change CR3_NOFLUSH with (2 ^ 63). rewrite Z.pow2_bits_eqb by lia.
  destruct (Z.eqb_spec 63 i) as [<-|Hne].
  - change 63 with CR3_NOFLUSH_BIT. rewrite Hbit. reflexivity.
  - apply andb_true_r.
Qed.

Lemma native_flush_tlb_eq (s : kstate) :
  Z.testbit (hw_cr3 s) CR3_NOFLUSH_BIT = false ->
  __native_flush_tlb s =
    Some (tt, Build_kstate (cfg s) (mms s) (cpu_tlbstate s) (hw_cr3 s)
                (hw_cr4 s)
                (List.filter (cr3_write_keeps (current_pcid s)) (hw_tlb s))
                (irqs_enabled s) (preempt_count s)
                (klog s ++ [EvWriteCR3 (hw_cr3 s)])).
Proof.
  intros Hbit.
  unfold __native_flush_tlb, preempt_disable, preempt_enable,
    __native_read_cr3, native_write_cr3, current_pcid.
  with_strategy opaque [Z.testbit] run_monad.
  rewrite Hbit, andb_false_r, (ldiff_noflush _ Hbit).
  unfold set_preempt_count, add_event, set_hw_tlb, set_hw_cr3. simpl.
  replace (Z.pred (Z.succ (preempt_count s))) with (preempt_count s) by lia.
  reflexivity.
Qed.

(** X8: [__native_flush_tlb] reloads CR3 with its own value.  The register
    keeps that value and exactly one CR3 write is issued; of the cached
    translations, exactly the non-global ones tagged with the current PCID
    are dropped, so global translations and those of other PCIDs stay
    cached; CR4, the shadow, the interrupt flag and the preemption count
    are as before; flushing again drops nothing more. *)
Theorem native_flush_tlb_spec (s : kstate) :
  Z.testbit (hw_cr3 s) CR3_NOFLUSH_BIT = false ->
  exists s',
    __native_flush_tlb s = Some (tt, s')
    /\ (forall e : tlb_entry,
          In e (hw_tlb s') <->
          In e (hw_tlb s)
          /\ (te_global e = true \/ te_pcid e <> current_pcid s))
    /\ hw_cr3 s' = hw_cr3 s
    /\ klog s' = klog s ++ [EvWriteCR3 (hw_cr3 s)]
    /\ hw_cr4 s' = hw_cr4 s
    /\ cpu_tlbstate s' = cpu_tlbstate s
    /\ irqs_enabled s' = irqs_enabled s
    /\ preempt_count s' = preempt_count s
    /\ mms s' = mms s
    /\ exists s'', __native_flush_tlb s' = Some (tt, s'')
                   /\ hw_tlb s'' = hw_tlb s'.
Proof.
  intros Hbit. eexists. split; [apply (native_flush_tlb_eq s Hbit)|].
  simpl. split.
  { intros e. rewrite filter_In. unfold cr3_write_keeps.
    rewrite orb_true_iff, negb_true_iff, Z.eqb_neq. reflexivity. }
  repeat (split; [reflexivity|]).
  eexists. split; [apply native_flush_tlb_eq; exact Hbit|].
  simpl. unfold current_pcid. simpl.
  induction (hw_tlb s) as [|e l IH]; simpl; [reflexivity|].
  destruct (cr3_write_keeps _ e) eqn:Hk; simpl; rewrite ?Hk, IH; reflexivity.
Qed.

Lemma native_flush_tlb_spec_witness :
  exists s',
    __native_flush_tlb kstate0 = Some (tt, s')
    /\ hw_tlb s' = [Build_tlb_entry 0 true 5]
    /\ hw_cr3 s' = 0.
Proof.
  destruct (native_flush_tlb_spec kstate0) as (s' & Hrun & _ & Hcr3 & _);
    [reflexivity|].
  exists s'. split; [exact Hrun|]. split; [|exact Hcr3].
  assert (Hc : (hw_tlb ∘ snd) <$> __native_flush_tlb kstate0
               = Some [Build_tlb_entry 0 true 5]) by (vm_compute; reflexivity).
  rewrite Hrun in Hc. injection Hc as Hc. exact Hc.
Defined.

(** X9: [__native_flush_tlb_global] empties the TLB from every state,
    whatever CR4 held and whether or not the shadow agreed with it.  With
    INVPCID it issues that one instruction and writes no register.
    Without, it writes CR4 exactly twice, first the shadow with PGE
    toggled, then the shadow, so CR4 ends equal to the shadow; the
    interrupt flag is restored.  Either way the shadow, CR3 and the
    preemption count are untouched and no assertion fires. *)
Theorem native_flush_tlb_global_spec (s : kstate) :
  exists s',
    __native_flush_tlb_global s = Some (tt, s')
    /\ hw_tlb s' = []
    /\ (boot_cpu_data (cfg s) X86_FEATURE_INVPCID = true ->
        klog s' = klog s ++ [EvInvpcidAll]
        /\ hw_cr4 s' = hw_cr4 s
        /\ cr4_writes s' = cr4_writes s)
    /\ (boot_cpu_data (cfg s) X86_FEATURE_INVPCID = false ->
        klog s' = klog s ++
                  [EvWriteCR4 (Z.lxor (cr4 (cpu_tlbstate s)) X86_CR4_PGE);
                   EvWriteCR4 (cr4 (cpu_tlbstate s))]
        /\ hw_cr4 s' = cr4 (cpu_tlbstate s)
        /\ shadow_coherent s')
    /\ warnings s' = warnings s
    /\ cpu_tlbstate s' = cpu_tlbstate s
    /\ hw_cr3 s' = hw_cr3 s
    /\ irqs_enabled s' = irqs_enabled s
    /\ preempt_count s' = preempt_count s
    /\ mms s' = mms s.
Proof.
  unfold __native_flush_tlb_global, static_cpu_has, invpcid_flush_all,
    raw_local_irq_save, raw_local_irq_restore, local_irq_save,
    local_irq_restore, this_cpu_read_cr4, native_write_cr4, shadow_coherent,
    warnings, cr4_writes.
  run_monad.
  destruct (boot_cpu_data (cfg s) X86_FEATURE_INVPCID); simpl.
  - eexists. split; [reflexivity|]. simpl.
    rewrite !omap_app. simpl. rewrite !app_nil_r.
    repeat split; discriminate.
  - eexists. split; [reflexivity|]. simpl.
    rewrite toggle_pge_flushes, <- app_assoc, !omap_app. simpl.
    rewrite !app_nil_r.
    repeat split; discriminate.
Qed.


(** ** Flush entry points, continued *)

(** X11: the range end that [flush_tlb_page] passes on.  For an address
    below [2^64] the end [a + PAGE_SIZE] is again an [unsigned long]; it
    falls below the start exactly when [a] lies in the last page of the
    address space, and it is the whole-address-space sentinel
    [TLB_FLUSH_ALL] for exactly one address, [2^64 - 1 - PAGE_SIZE].  For a
    page-aligned address the end is page-aligned too, so it is never the
    sentinel, and it is 0 only for the last page. *)
Theorem flush_tlb_page_end (vma : vm_area_struct) (a : Z) :
  in_u64 a ->
  exists end_ : Z,
    (forall flush_tlb_mm_range : mm_ptr -> Z -> Z -> Z -> M unit,
        flush_tlb_page flush_tlb_mm_range vma a
        = flush_tlb_mm_range (vm_mm vma) a end_ VM_NONE)
    /\ in_u64 end_
    /\ (end_ < a <-> 2 ^ 64 - PAGE_SIZE <= a)
    /\ (end_ = TLB_FLUSH_ALL <-> a = 2 ^ 64 - 1 - PAGE_SIZE)
    /\ (page_aligned a ->
        page_aligned end_
        /\ end_ <> TLB_FLUSH_ALL
        /\ (end_ = 0 <-> a = 2 ^ 64 - PAGE_SIZE)).
Proof.
  intros Ha. unfold in_u64 in *. exists (u64 (a + PAGE_SIZE)).
  split; [reflexivity|].
  rewrite TLB_FLUSH_ALL_val. unfold page_aligned, u64, wrap.
  change PAGE_SIZE with 4096.
  split; [apply Z.mod_pos_bound; lia|].
  split; [Z.div_mod_to_equations; lia|].
  split; [Z.div_mod_to_equations; lia|].
  intros Hal.
  split; [|split]; Z.div_mod_to_equations; lia.
Qed.

Lemma flush_tlb_page_end_witness :
  exists end_ : Z,
    flush_tlb_page record_flush_tlb_mm_range
      (Build_vm_area_struct 2%nat 255) (2 ^ 64 - 1 - PAGE_SIZE) kstate0
    = record_flush_tlb_mm_range 2%nat (2 ^ 64 - 1 - PAGE_SIZE) end_ VM_NONE
        kstate0
    /\ end_ = TLB_FLUSH_ALL.
Proof.
  destruct (flush_tlb_page_end (Build_vm_area_struct 2%nat 255)
              (2 ^ 64 - 1 - PAGE_SIZE))
    as (end_ & Hcall & _ & _ & Hall & _).
  - vm_compute. split; [discriminate | reflexivity].
  - exists end_. split; [rewrite Hcall; reflexivity|].
    apply Hall. reflexivity.
Defined.

(** ** Batched unmap, continued *)

(** X12: the order in which address spaces are added to a batch does not
    matter, and adding one twice costs a generation but no CPU.  For two
    distinct address spaces, adding them in either order gives the same
    batch and the same memory; adding the same address space twice gives
    the mask of a single addition while its generation counter has moved
    by two. *)
Theorem arch_tlbbatch_add_mm_order (batch : arch_tlbflush_unmap_batch)
    (p q : mm_ptr) (s : kstate) (mp mq : mm_struct) :
  mms s !! p = Some mp ->
  mms s !! q = Some mq ->
  (p <> q ->
   exists b' s',
     bind (arch_tlbbatch_add_mm batch p) (fun b => arch_tlbbatch_add_mm b q) s
     = Some (b', s')
     /\ bind (arch_tlbbatch_add_mm batch q) (fun b => arch_tlbbatch_add_mm b p) s
        = Some (b', s')
     /\ cpumask b' = cpumask batch ∪ cpu_bitmap mp ∪ cpu_bitmap mq
     /\ stored_gen s' p = Some (u64 (context_tlb_gen mp + 1))
     /\ stored_gen s' q = Some (u64 (context_tlb_gen mq + 1)))
  /\ (exists b1 s1 b2 s2,
        arch_tlbbatch_add_mm batch p s = Some (b1, s1)
        /\ arch_tlbbatch_add_mm b1 p s1 = Some (b2, s2)
        /\ cpumask b2 = cpumask b1
        /\ stored_gen s2 p = Some (u64 (context_tlb_gen mp + 2))
        /\ affinity_set s2 p = affinity_set s p).
Proof.
  intros Hp Hq. split.
  - intros Hne.
    set (mp' := Build_mm_struct (context_ctx_id mp)
                  (u64 (context_tlb_gen mp + 1)) (cpu_bitmap mp)).
    set (mq' := Build_mm_struct (context_ctx_id mq)
                  (u64 (context_tlb_gen mq + 1)) (cpu_bitmap mq)).
    exists (Build_arch_tlbflush_unmap_batch
              (cpumask batch ∪ cpu_bitmap mp ∪ cpu_bitmap mq)),
           (set_mms <[q := mq']> (set_mms <[p := mp']> s)).
    split; [|split; [|split; [|split]]].
    + unfold bind. rewrite (arch_tlbbatch_add_mm_eq batch p s mp Hp).
      rewrite (arch_tlbbatch_add_mm_eq _ q _ mq); [reflexivity|].
      simpl. rewrite lookup_insert_ne by done. exact Hq.
    + unfold bind. rewrite (arch_tlbbatch_add_mm_eq batch q s mq Hq).
      rewrite (arch_tlbbatch_add_mm_eq _ p _ mp);
        [|simpl; rewrite lookup_insert_ne by done; exact Hp].
      simpl. unfold set_mms. simpl. f_equal. f_equal.
      * f_equal. rewrite <- !(assoc_L (∪)). f_equal. apply (comm_L (∪)).
      * f_equal. apply insert_insert_ne. done.
    + reflexivity.
    + unfold stored_gen. simpl. rewrite lookup_insert_ne by done.
      rewrite lookup_insert_eq. reflexivity.
    + unfold stored_gen. simpl. rewrite lookup_insert_eq. reflexivity.
  - eexists _, _, _, _.
    split; [apply (arch_tlbbatch_add_mm_eq batch p s mp Hp)|].
    split; [apply arch_tlbbatch_add_mm_eq; simpl; apply lookup_insert_eq|].
    simpl. split.
    { rewrite <- (assoc_L (∪)). f_equal. apply (idemp_L (∪)). }
    split.
    { unfold stored_gen. simpl. rewrite lookup_insert_eq. simpl. f_equal.
      unfold u64, wrap. rewrite Zplus_mod_idemp_l. f_equal. lia. }
    unfold affinity_set. simpl. rewrite lookup_insert_eq, Hp. reflexivity.
Qed.

Lemma arch_tlbbatch_add_mm_order_witness :
  exists b' s',
    bind (arch_tlbbatch_add_mm (Build_arch_tlbflush_unmap_batch ∅) 1%nat)
      (fun b => arch_tlbbatch_add_mm b 2%nat) kstate0 = Some (b', s')
    /\ bind (arch_tlbbatch_add_mm (Build_arch_tlbflush_unmap_batch ∅) 2%nat)
         (fun b => arch_tlbbatch_add_mm b 1%nat) kstate0 = Some (b', s')
    /\ stored_gen s' 1%nat = Some 0
    /\ stored_gen s' 2%nat = Some 8.
Proof.
  assert (H1 : mms kstate0 !! 1%nat
               = Some (Build_mm_struct 1 U64_MAX {[0%nat]}))
    by (vm_compute; reflexivity).
  assert (H2 : mms kstate0 !! 2%nat
               = Some (Build_mm_struct 2 7 {[1%nat; 2%nat]}))
    by (vm_compute; reflexivity).
  destruct (arch_tlbbatch_add_mm_order (Build_arch_tlbflush_unmap_batch ∅)
              1%nat 2%nat kstate0 _ _ H1 H2) as [Hswap _].
  destruct Hswap as (b' & s' & Ha & Hb & _ & Hg1 & Hg2); [discriminate|].
  exists b', s'. split; [exact Ha|]. split; [exact Hb|].
  split; [exact Hg1 | exact Hg2].
Defined.

(** ** The boot-time CR4 feature set *)

(** X13: [cr4_set_bits_and_update_boot(mask)] does to the CPU what
    [cr4_set_bits(mask)] does and records the mask in [mmu_cr4_features],
    which only ever gains bits.  The copy behind [trampoline_cr4_features]
    is written only through a non-null pointer and is a [u32]: it then
    holds the low 32 bits of [mmu_cr4_features], so a bit of the mask at
    position 32 or above reaches [mmu_cr4_features] but not the trampoline
    copy.  Calling again with the same mask changes nothing more. *)
Theorem cr4_set_bits_and_update_boot_spec (mask : Z) (b : boot_cr4)
    (s : kstate) :
  exists b' s',
    cr4_set_bits_and_update_boot mask b s = Some (b', s')
    /\ cr4_set_bits mask s = Some (tt, s')
    /\ mmu_cr4_features b' = Z.lor (mmu_cr4_features b) mask
    /\ (forall i, Z.testbit (mmu_cr4_features b) i = true ->
                  Z.testbit (mmu_cr4_features b') i = true)
    /\ (forall i, Z.testbit mask i = true ->
                  Z.testbit (mmu_cr4_features b') i = true)
    /\ (trampoline_cr4_features b = None -> trampoline_cr4_features b' = None)
    /\ (is_Some (trampoline_cr4_features b) ->
        exists t,
          trampoline_cr4_features b' = Some t
          /\ 0 <= t < 2 ^ 32
          /\ (forall i, 0 <= i < 32 ->
                        Z.testbit t i = Z.testbit (mmu_cr4_features b') i)
          /\ (forall i, 32 <= i -> Z.testbit t i = false))
    /\ cr4_set_bits_and_update_boot mask b' s' = Some (b', s').
Proof.
  destruct (cr4_set_bits_shadow mask s) as (s' & Hrun & Hs').
  eexists _, s'.
  split; [unfold cr4_set_bits_and_update_boot, bind; rewrite Hrun; reflexivity|].
  split; [exact Hrun|]. simpl.
  split; [reflexivity|].
  split; [intros i Hi; rewrite Z.lor_spec, Hi; reflexivity|].
  split; [intros i Hi; rewrite Z.lor_spec, Hi; apply orb_true_r|].
  split; [intros ->; reflexivity|].
  split.
  { intros [old ->]. eexists. split; [reflexivity|].
    unfold u32, wrap.
    split; [apply Z.mod_pos_bound; lia|].
    split.
    - intros i Hi. apply Z.mod_pow2_bits_low. lia.
    - intros i Hi. apply Z.mod_pow2_bits_high. lia. }
  assert (Hagain : cr4_set_bits mask s' = Some (tt, s')).
  { rewrite cr4_set_bits_eq, Hs', lor_idem, Z.eqb_refl. reflexivity. }
  unfold cr4_set_bits_and_update_boot, bind. rewrite Hagain. simpl.
  rewrite lor_idem. destruct (trampoline_cr4_features b); reflexivity.
Qed.

Lemma cr4_set_bits_and_update_boot_spec_witness :
  exists b' s',
    cr4_set_bits_and_update_boot (Z.lor (2 ^ 32) X86_CR4_PCIDE)
      (Build_boot_cr4 X86_CR4_PGE (Some X86_CR4_PGE)) kstate0 = Some (b', s')
    /\ Z.testbit (mmu_cr4_features b') 32 = true
    /\ exists t, trampoline_cr4_features b' = Some t
                 /\ Z.testbit t 32 = false
                 /\ Z.testbit t X86_CR4_PCIDE_BIT = true.
Proof.
  destruct (cr4_set_bits_and_update_boot_spec (Z.lor (2 ^ 32) X86_CR4_PCIDE)
              (Build_boot_cr4 X86_CR4_PGE (Some X86_CR4_PGE)) kstate0)
    as (b' & s' & Hrun & _ & _ & _ & Hmask & _ & Htramp & _).
  exists b', s'. split; [exact Hrun|].
  split; [apply Hmask; reflexivity|].
  destruct Htramp as (t & Ht & _ & Hlow & Hhigh); [simpl; eauto|].
  exists t. split; [exact Ht|]. split; [apply Hhigh; lia|].
  rewrite Hlow by (unfold X86_CR4_PCIDE_BIT; lia).
  apply Hmask. reflexivity.
Defined.

Lemma native_flush_tlb_global_spec_witness :
  exists s',
    __native_flush_tlb_global kstate_stale = Some (tt, s')
    /\ hw_tlb s' = []
    /\ hw_cr4 kstate_stale = X86_CR4_PGE
    /\ hw_cr4 s' = 0
    /\ shadow_coherent s'.
Proof.
  destruct (native_flush_tlb_global_spec kstate_stale)
    as (s' & Hrun & Htlb & _ & Hcr4 & _).
  destruct Hcr4 as (_ & Hhw & Hco); [reflexivity|].
  exists s'. split; [exact Hrun|]. split; [exact Htlb|].
  split; [reflexivity|]. split; [exact Hhw | exact Hco].
Defined.

(** ** Well-formed CPU states *)

Lemma forallb_filter {A} (f g : A -> bool) (l : list A) :
  forallb f l = true -> forallb f (List.filter g l) = true.
Proof.
  induction l as [|x l IH]; simpl; [reflexivity|].
  intros [Hx Hl]%andb_prop. destruct (g x); simpl; [rewrite Hx|]; auto.
Qed.

(** [tlb_tags_ok] as a function of the register and the TLB. *)
Lemma tlb_tags_ok_eq (s : kstate) :
  tlb_tags_ok s =
    (cr4_pge (hw_cr4 s) || forallb (fun e => negb (te_global e)) (hw_tlb s))
    && (cr4_pcide (hw_cr4 s)
        || forallb (fun e => Z.eqb (te_pcid e) 0) (hw_tlb s)).
Proof. reflexivity. Qed.

Lemma tags_ok_filter (s s' : kstate) (g : tlb_entry -> bool) :
  hw_cr4 s' = hw_cr4 s ->
  hw_tlb s' = List.filter g (hw_tlb s) ->
  tlb_tags_ok s = true -> tlb_tags_ok s' = true.
Proof.
  intros Hcr4 Htlb. rewrite !tlb_tags_ok_eq, Hcr4, Htlb.
  intros [H1 H2]%andb_prop. apply andb_true_intro. split.
  - apply orb_true_iff. apply orb_true_iff in H1 as [H1|H1]; [left; exact H1|].
    right. apply forallb_filter. exact H1.
  - apply orb_true_iff. apply orb_true_iff in H2 as [H2|H2]; [left; exact H2|].
    right. apply forallb_filter. exact H2.
Qed.

Lemma tags_ok_empty (s : kstate) : hw_tlb s = [] -> tlb_tags_ok s = true.
Proof.
  intros Htlb. rewrite tlb_tags_ok_eq, Htlb. simpl.
  rewrite !orb_true_r. reflexivity.
Qed.

Lemma tags_ok_cr4_written (v : Z) (s : kstate) :
  tlb_tags_ok s = true -> tlb_tags_ok (cr4_written v s) = true.
Proof.
  rewrite !tlb_tags_ok_eq. simpl. unfold cr4_write_flushes.
  intros [H1 H2]%andb_prop.
  destruct (cr4_pge (hw_cr4 s)), (cr4_pge v), (cr4_pcide (hw_cr4 s)),
    (cr4_pcide v); simpl in *; rewrite ?H1, ?H2; reflexivity.
Qed.

Lemma tags_ok_warn_if (b : bool) (w : warn_site) (s : kstate) :
  tlb_tags_ok (warn_if b w s) = tlb_tags_ok s.
Proof. destruct b; reflexivity. Qed.

Lemma cr4_value_ok_lor (c : config) (a b : Z) :
  cr4_value_ok c a = true -> cr4_value_ok c b = true ->
  cr4_value_ok c (Z.lor a b) = true.
Proof.
  unfold cr4_value_ok, cr4_pge, cr4_pcide. rewrite !Z.lor_spec.
  destruct (Z.testbit a X86_CR4_PGE_BIT), (Z.testbit b X86_CR4_PGE_BIT),
    (Z.testbit a X86_CR4_PCIDE_BIT), (Z.testbit b X86_CR4_PCIDE_BIT),
    (boot_cpu_data c X86_FEATURE_PGE), (boot_cpu_data c X86_FEATURE_PCID);
    simpl; auto.
Qed.

Lemma cr4_value_ok_lxor (c : config) (a b : Z) :
  cr4_value_ok c a = true -> cr4_value_ok c b = true ->
  cr4_value_ok c (Z.lxor a b) = true.
Proof.
  unfold cr4_value_ok, cr4_pge, cr4_pcide. rewrite !Z.lxor_spec.
  destruct (Z.testbit a X86_CR4_PGE_BIT), (Z.testbit b X86_CR4_PGE_BIT),
    (Z.testbit a X86_CR4_PCIDE_BIT), (Z.testbit b X86_CR4_PCIDE_BIT),
    (boot_cpu_data c X86_FEATURE_PGE), (boot_cpu_data c X86_FEATURE_PCID);
    simpl; auto.
Qed.

Lemma cr4_value_ok_land (c : config) (a b : Z) :
  cr4_value_ok c a = true -> cr4_value_ok c (Z.land a b) = true.
Proof.
  unfold cr4_value_ok, cr4_pge, cr4_pcide. rewrite !Z.land_spec.
  destruct (Z.testbit a X86_CR4_PGE_BIT), (Z.testbit b X86_CR4_PGE_BIT),
    (Z.testbit a X86_CR4_PCIDE_BIT), (Z.testbit b X86_CR4_PCIDE_BIT),
    (boot_cpu_data c X86_FEATURE_PGE), (boot_cpu_data c X86_FEATURE_PCID);
    simpl; auto.
Qed.

Lemma cpu_wf_cr4_written (v : Z) (s s0 : kstate) :
  cfg s0 = cfg s -> tlb_tags_ok s0 = true ->
  cr4_value_ok (cfg s) v = true ->
  cpu_wf (cr4_written v s0) /\ cfg (cr4_written v s0) = cfg s.
Proof.
  intros Hcfg Htags Hv. split; [|exact Hcfg].
  split; [reflexivity|]. split.
  - unfold cr4_features_ok. simpl. rewrite Hcfg. exact Hv.
  - apply tags_ok_cr4_written. exact Htags.
Qed.

Lemma native_flush_tlb_effect (s : kstate) :
  exists s' g,
    __native_flush_tlb s = Some (tt, s')
    /\ cfg s' = cfg s /\ cpu_tlbstate s' = cpu_tlbstate s
    /\ hw_cr4 s' = hw_cr4 s
    /\ hw_tlb s' = List.filter g (hw_tlb s).
Proof.
  unfold __native_flush_tlb, preempt_disable, preempt_enable,
    __native_read_cr3, native_write_cr3.
  with_strategy opaque [Z.testbit] run_monad.
  destruct (cr4_pcide (hw_cr4 s) && Z.testbit (hw_cr3 s) CR3_NOFLUSH_BIT).
  - exists (set_preempt_count Z.pred
              (add_event (EvWriteCR3 (hw_cr3 s))
                 (set_hw_tlb (fun t => t)
                    (set_hw_cr3 (Z.ldiff (hw_cr3 s) CR3_NOFLUSH)
                       (set_preempt_count Z.succ s))))),
           (fun _ => true).
    split; [reflexivity|]. simpl. repeat split.
    induction (hw_tlb s) as [|e l IH]; simpl; [reflexivity|].
    rewrite <- IH. reflexivity.
  - eexists _, _. split; [reflexivity|]. simpl. repeat split.
Qed.

Lemma native_flush_tlb_single_effect (addr : Z) (s : kstate) :
  exists s' g,
    __native_flush_tlb_single addr s = Some (tt, s')
    /\ cfg s' = cfg s /\ cpu_tlbstate s' = cpu_tlbstate s
    /\ hw_cr4 s' = hw_cr4 s
    /\ hw_tlb s' = List.filter g (hw_tlb s).
Proof.
  unfold __native_flush_tlb_single, invlpg. run_monad.
  eexists _, _. split; [reflexivity|]. simpl. repeat split.
Qed.

Lemma cpu_wf_filtered (s s' : kstate) (g : tlb_entry -> bool) :
  cfg s' = cfg s -> cpu_tlbstate s' = cpu_tlbstate s ->
  hw_cr4 s' = hw_cr4 s -> hw_tlb s' = List.filter g (hw_tlb s) ->
  cpu_wf s -> cpu_wf s'.
Proof.
  intros Hcfg Hts Hcr4 Htlb (Hco & Hfeat & Htags).
  split; [unfold shadow_coherent; rewrite Hts, Hcr4; exact Hco|].
  split.
  - unfold cr4_features_ok in *. rewrite Hcr4, Hcfg. exact Hfeat.
  - apply (tags_ok_filter s s' g Hcr4 Htlb Htags).
Qed.

Lemma cpu_wf_flush_global (s : kstate) :
  cpu_wf s ->
  exists s', __native_flush_tlb_global s = Some (tt, s')
             /\ cpu_wf s' /\ cfg s' = cfg s.
Proof.
  intros (Hco & Hfeat & Htags).
  destruct (flush_tlb_global_spec s)
    as (s' & Hrun & Htlb & Hcfg & _ & Hts & _).
  destruct (native_flush_tlb_global_cr4 s) as (s2 & Hrun2 & _ & Hhw).
  unfold __flush_tlb_global in Hrun. rewrite Hrun in Hrun2.
  injection Hrun2 as <-.
  exists s'. split; [exact Hrun|]. split; [|exact Hcfg].
  assert (Hcr4 : hw_cr4 s' = hw_cr4 s).
  { rewrite Hhw. destruct (boot_cpu_data (cfg s) X86_FEATURE_INVPCID);
      [reflexivity | exact Hco]. }
  split; [unfold shadow_coherent; rewrite Hts, Hcr4; exact Hco|].
  split; [|apply tags_ok_empty; exact Htlb].
  unfold cr4_features_ok in *. rewrite Hcr4, Hcfg. exact Hfeat.
Qed.

Lemma run_op_wf (op : cpu_op) (s : kstate) :
  cpu_wf s ->
  op_features_ok (cfg s) op = true ->
  exists s', run_op op s = Some (tt, s') /\ cpu_wf s' /\ cfg s' = cfg s.
Proof.
  intros Hwf Hop. pose proof Hwf as (Hco & Hfeat & Htags).
  assert (Hshadow : cr4_value_ok (cfg s) (cr4 (cpu_tlbstate s)) = true).
  { unfold shadow_coherent in Hco. rewrite Hco. exact Hfeat. }
  destruct op as [|v|mask|mask|mask| | |addr|]; simpl in *.
  - unfold cr4_init_shadow, __read_cr4, this_cpu_write_cr4. run_monad.
    eexists. split; [reflexivity|]. split; [|reflexivity].
    split; [reflexivity|]. split; [exact Hfeat | exact Htags].
  - eexists. split; [apply cr4_set_eq|].
    apply cpu_wf_cr4_written; [apply warn_if_fields | | exact Hop].
    rewrite tags_ok_warn_if. exact Htags.
  - eexists. split; [apply cr4_set_bits_eq|].
    destruct (Z.eqb (Z.lor (cr4 (cpu_tlbstate s)) mask) (cr4 (cpu_tlbstate s)));
      [split; [exact Hwf | reflexivity]|].
    apply cpu_wf_cr4_written; [reflexivity | exact Htags|].
    apply cr4_value_ok_lor; assumption.
  - eexists. split; [apply cr4_clear_bits_eq|].
    destruct (Z.eqb (Z.land (cr4 (cpu_tlbstate s)) (not64 mask))
                (cr4 (cpu_tlbstate s)));
      [split; [exact Hwf | reflexivity]|].
    apply cpu_wf_cr4_written; [reflexivity | exact Htags|].
    apply cr4_value_ok_land. exact Hshadow.
  - eexists. split; [apply cr4_toggle_bits_irqsoff_eq|].
    apply cpu_wf_cr4_written; [apply warn_if_fields | |].
    + rewrite tags_ok_warn_if. exact Htags.
    + apply cr4_value_ok_lxor; assumption.
  - destruct (native_flush_tlb_effect s)
      as (s' & g & Hrun & Hcfg & Hts & Hcr4 & Htlb).
    exists s'. split; [exact Hrun|]. split; [|exact Hcfg].
    apply (cpu_wf_filtered s s' g); assumption.
  - apply cpu_wf_flush_global. exact Hwf.
  - destruct (native_flush_tlb_single_effect addr s)
      as (s' & g & Hrun & Hcfg & Hts & Hcr4 & Htlb).
    exists s'. split; [exact Hrun|]. split; [|exact Hcfg].
    apply (cpu_wf_filtered s s' g); assumption.
  - rewrite flush_tlb_all_branch.
    destruct (boot_cpu_data (cfg s) X86_FEATURE_PGE).
    + apply cpu_wf_flush_global. exact Hwf.
    + destruct (native_flush_tlb_effect s)
        as (s' & g & Hrun & Hcfg & Hts & Hcr4 & Htlb).
      exists s'. split; [exact Hrun|]. split; [|exact Hcfg].
      apply (cpu_wf_filtered s s' g); assumption.
Qed.

(** X14: the header's CPU operations keep the CPU well-formed, so that
    [__flush_tlb_all] stays a flush of everything.  From a state with a
    coherent shadow, CR4 within the CPU's features and TLB tags consistent
    with CR4, any sequence of operations that asks for no CR4 bit of a
    missing feature runs to completion and ends in such a state again; and
    under the rule [!PGE -> !PCID] a [__flush_tlb_all] at that point leaves
    no translation cached. *)
Theorem cpu_wf_invariant (ops : list cpu_op) (s : kstate) :
  cpu_wf s ->
  setup_pcid_rule (cfg s) = true ->
  forallb (op_features_ok (cfg s)) ops = true ->
  exists s1 s2,
    run_ops ops s = Some (tt, s1)
    /\ cpu_wf s1
    /\ cfg s1 = cfg s
    /\ __flush_tlb_all s1 = Some (tt, s2)
    /\ hw_tlb s2 = []
    /\ cpu_wf s2.
Proof.
  intros Hwf Hrule Hops.
  assert (Hrun : exists s1, run_ops ops s = Some (tt, s1)
                            /\ cpu_wf s1 /\ cfg s1 = cfg s).
  { clear Hrule. revert s Hwf Hops.
    induction ops as [|op ops IH]; intros s Hwf Hops.
    - exists s. split; [reflexivity|]. split; [exact Hwf | reflexivity].
    - simpl in Hops. apply andb_prop in Hops as [Hop Hops].
      destruct (run_op_wf op s Hwf Hop) as (s1 & Hstep & Hwf1 & Hcfg1).
      rewrite <- Hcfg1 in Hops.
      destruct (IH s1 Hwf1 Hops) as (s' & Hrest & Hwf' & Hcfg').
      exists s'. split; [simpl; unfold bind; rewrite Hstep; exact Hrest|].
      split; [exact Hwf' | congruence]. }
  destruct Hrun as (s1 & Hrun & Hwf1 & Hcfg1).
  rewrite <- Hcfg1 in Hrule.
  destruct (run_op_wf OpFlushTlbAll s1 Hwf1 eq_refl) as (s2 & Hfl & Hwf2 & _).
  simpl in Hfl.
  exists s1, s2. split; [exact Hrun|]. split; [exact Hwf1|].
  split; [exact Hcfg1|]. split; [exact Hfl|]. split; [|exact Hwf2].
  destruct Hwf1 as (_ & Hfeat & Htags).
  rewrite flush_tlb_all_branch in Hfl.
  unfold setup_pcid_rule in Hrule. unfold cr4_features_ok in Hfeat.
  rewrite tlb_tags_ok_eq in Htags.
  destruct (boot_cpu_data (cfg s1) X86_FEATURE_PGE).
  - destruct (flush_tlb_global_spec s1) as (s3 & Hg & Htlb & _).
    unfold __flush_tlb_global in Hg. congruence.
  - destruct (boot_cpu_data (cfg s1) X86_FEATURE_PCID); [discriminate Hrule|].
    destruct (cr4_pge (hw_cr4 s1)); [discriminate Hfeat|].
    destruct (cr4_pcide (hw_cr4 s1)) eqn:Hpcide; [discriminate Hfeat|].
    simpl in Htags. apply andb_prop in Htags as [Ht1 Ht2].
    destruct (flush_tlb_legacy_spec s1 Hpcide Ht1 Ht2) as (s3 & Hl & Htlb & _).
    unfold __flush_tlb in Hl. congruence.
Qed.

Lemma cpu_wf_invariant_witness :
  exists s1 s2,
    run_ops [OpCr4SetBits X86_CR4_PCIDE; OpNativeFlushTlb;
             OpCr4ToggleBitsIrqsoff X86_CR4_PGE; OpNativeFlushTlbSingle 4096]
      kstate0 = Some (tt, s1)
    /\ __flush_tlb_all s1 = Some (tt, s2)
    /\ hw_tlb s2 = [].
Proof.
  destruct (cpu_wf_invariant
              [OpCr4SetBits X86_CR4_PCIDE; OpNativeFlushTlb;
               OpCr4ToggleBitsIrqsoff X86_CR4_PGE; OpNativeFlushTlbSingle 4096]
              kstate0) as (s1 & s2 & Hrun & _ & _ & Hfl & Htlb & _).
  - repeat split.
  - reflexivity.
  - reflexivity.
  - exists s1, s2. split; [exact Hrun|]. split; [exact Hfl | exact Htlb].
Defined.

(** ** What a flush of everything leaves behind *)

(** X15: what [__flush_tlb_all] leaves in the TLB, from any state whose CR3
    has bit 63 clear.  With PGE nothing is left, whatever the state.
    Without PGE a translation is left exactly if it was cached and is
    global or tagged with another PCID than the current one: the flush is
    total only if no such translation is cached. *)
Theorem flush_tlb_all_survivors (s : kstate) :
  Z.testbit (hw_cr3 s) CR3_NOFLUSH_BIT = false ->
  exists s',
    __flush_tlb_all s = Some (tt, s')
    /\ (boot_cpu_data (cfg s) X86_FEATURE_PGE = true -> hw_tlb s' = [])
    /\ (forall e : tlb_entry,
          In e (hw_tlb s') <->
          boot_cpu_data (cfg s) X86_FEATURE_PGE = false
          /\ In e (hw_tlb s)
          /\ (te_global e = true \/ te_pcid e <> current_pcid s)).
Proof.
  intros Hbit. rewrite flush_tlb_all_branch.
  destruct (boot_cpu_data (cfg s) X86_FEATURE_PGE).
  - destruct (flush_tlb_global_spec s) as (s' & Hrun & Htlb & _).
    exists s'. split; [exact Hrun|]. split; [intros _; exact Htlb|].
    intros e. rewrite Htlb. simpl. split; [tauto | intros [H _]; discriminate].
  - eexists. split; [apply (native_flush_tlb_eq s Hbit)|].
    split; [discriminate|]. intros e. simpl. rewrite filter_In.
    unfold cr3_write_keeps.
    rewrite orb_true_iff, negb_true_iff, Z.eqb_neq. tauto.
Qed.

Lemma flush_tlb_all_survivors_witness :
  exists s',
    __flush_tlb_all kstate_pcid_no_pge = Some (tt, s')
    /\ In (Build_tlb_entry 2 false 6) (hw_tlb s')
    /\ ~ In (Build_tlb_entry 1 false 5) (hw_tlb s').
Proof.
  destruct (flush_tlb_all_survivors kstate_pcid_no_pge)
    as (s' & Hrun & _ & Hin); [reflexivity|].
  exists s'. split; [exact Hrun|]. split.
  - apply Hin. split; [reflexivity|]. split; [simpl; tauto|].
    right. vm_compute. discriminate.
  - intros H. apply Hin in H as (_ & _ & [Hg|Hp]).
    + discriminate Hg.
    + apply Hp. reflexivity.
Defined.

(** ** Loading CR3 *)

Lemma build_cr3_values (pgd : pgd_ptr) (asid : Z) (s : kstate) :
  boot_cpu_data (cfg s) X86_FEATURE_PCID = true ->
  0 <= asid <= MAX_ASID_AVAILABLE ->
  Z.land (sme_pa (cfg s) pgd) CR3_PCID_MASK = 0 ->
  0 <= sme_pa (cfg s) pgd < 2 ^ 63 ->
  let v := Z.lor (sme_pa (cfg s) pgd) (asid + 1) in
  build_cr3 pgd asid s = Some (v, s)
  /\ build_cr3_noflush pgd asid s = Some (Z.lor v CR3_NOFLUSH, s)
  /\ Z.testbit v CR3_NOFLUSH_BIT = false
  /\ Z.land v CR3_PCID_MASK = asid + 1.
Proof.
  intros Hpcid Hasid Hal Hpa v.
  pose proof MAX_ASID_AVAILABLE_val as HM.
  destruct (kern_pcid_valid asid s Hasid) as [_ Hfit].
  destruct (tag_embeds _ _ Hal Hfit) as [Hfield _].
  split.
  { rewrite (build_cr3_pcid_eq _ _ _ Hpcid), not_above_max by lia.
    rewrite andb_false_r, u16_small by lia. reflexivity. }
  split.
  { rewrite build_cr3_noflush_eq. cbv zeta.
    rewrite not_above_max by lia. rewrite Hpcid, !andb_false_r.
    rewrite u16_small by lia. reflexivity. }
  split; [|exact Hfield].
  apply (testbit_high _ 63); [lia | | unfold CR3_NOFLUSH_BIT; lia].
  pose proof (lor_bound (sme_pa (cfg s) pgd) (asid + 1)) as Hb.
  pose proof (aligned_mod _ Hal) as Hm.
  assert (sme_pa (cfg s) pgd <= 2 ^ 63 - 4096)
    by (Z.div_mod_to_equations; lia).
  subst v. lia.
Qed.

(** X16: loading CR3 with what [build_cr3] and [build_cr3_noflush] return,
    on a CPU running with PCIDs, for a valid ASID and a page-aligned root
    below [2^63].  Either load leaves the same value in CR3 and makes
    [asid + 1] the current PCID.  The load of [build_cr3]'s value drops
    exactly the non-global translations tagged [asid + 1]; the load of
    [build_cr3_noflush]'s value drops nothing. *)
Theorem load_cr3_flush_or_not (pgd : pgd_ptr) (asid : Z) (s : kstate) :
  boot_cpu_data (cfg s) X86_FEATURE_PCID = true ->
  cr4_pcide (hw_cr4 s) = true ->
  0 <= asid <= MAX_ASID_AVAILABLE ->
  Z.land (sme_pa (cfg s) pgd) CR3_PCID_MASK = 0 ->
  0 <= sme_pa (cfg s) pgd < 2 ^ 63 ->
  exists sa sb,
    bind (build_cr3 pgd asid) native_write_cr3 s = Some (tt, sa)
    /\ bind (build_cr3_noflush pgd asid) native_write_cr3 s = Some (tt, sb)
    /\ hw_cr3 sa = Z.lor (sme_pa (cfg s) pgd) (asid + 1)
    /\ hw_cr3 sb = hw_cr3 sa
    /\ current_pcid sa = asid + 1
    /\ current_pcid sb = asid + 1
    /\ hw_tlb sb = hw_tlb s
    /\ (forall e : tlb_entry,
          In e (hw_tlb sa) <->
          In e (hw_tlb s) /\ (te_global e = true \/ te_pcid e <> asid + 1)).
Proof.
  intros Hpcid Hpcide Hasid Hal Hpa.
  destruct (build_cr3_values pgd asid s Hpcid Hasid Hal Hpa)
    as (Hrun & Hrunnf & Hbit & Hfield).
  set (v := Z.lor (sme_pa (cfg s) pgd) (asid + 1)) in *.
  assert (Hbitnf : Z.testbit (Z.lor v CR3_NOFLUSH) CR3_NOFLUSH_BIT = true).
  { rewrite Z.lor_spec.
    change (Z.testbit CR3_NOFLUSH CR3_NOFLUSH_BIT) with true.
    apply orb_true_r. }
  assert (Hclr : Z.ldiff (Z.lor v CR3_NOFLUSH) CR3_NOFLUSH = v).
  { apply Z.bits_inj'. intros i Hi.
    rewrite Z.ldiff_spec, Z.lor_spec.
    change CR3_NOFLUSH with (2 ^ 63). rewrite Z.pow2_bits_eqb by lia.
    destruct (Z.eqb_spec 63 i) as [<-|Hne].
    - change 63 with CR3_NOFLUSH_BIT. rewrite Hbit. reflexivity.
    - rewrite orb_false_r, andb_true_r. reflexivity. }
  unfold bind. rewrite Hrun, Hrunnf.
  unfold native_write_cr3, modify, current_pcid.
  eexists _, _. split; [reflexivity|]. split; [reflexivity|].
  with_strategy opaque [Z.testbit Z.ldiff Z.land Z.lor] simpl.
  rewrite Hpcide, Hbit, Hbitnf, Hclr, (ldiff_noflush v Hbit), Hfield.
  with_strategy opaque [Z.testbit Z.ldiff Z.land Z.lor] simpl.
  repeat (split; [reflexivity|]).
  intros e. rewrite filter_In. unfold cr3_write_keeps.
  rewrite orb_true_iff, negb_true_iff, Z.eqb_neq. reflexivity.
Qed.

Lemma load_cr3_flush_or_not_witness :
  exists sa sb,
    bind (build_cr3 3%nat 1) native_write_cr3 kstate_pcid_no_pge
    = Some (tt, sa)
    /\ bind (build_cr3_noflush 3%nat 1) native_write_cr3 kstate_pcid_no_pge
       = Some (tt, sb)
    /\ hw_tlb sb = [Build_tlb_entry 1 false 5; Build_tlb_entry 2 false 6]
    /\ In (Build_tlb_entry 1 false 5) (hw_tlb sa)
    /\ ~ In (Build_tlb_entry 2 false 6) (hw_tlb sa).
Proof.
  destruct (load_cr3_flush_or_not 3%nat 1 kstate_pcid_no_pge)
    as (sa & sb & Ha & Hb & _ & _ & _ & _ & Hkeep & Hin).
  - reflexivity.
  - reflexivity.
  - vm_compute. split; discriminate.
  - reflexivity.
  - vm_compute. split; [discriminate | reflexivity].
  - exists sa, sb. split; [exact Ha|]. split; [exact Hb|].
    split; [exact Hkeep|]. split.
    + apply Hin. split; [simpl; tauto|]. right. discriminate.
    + intros H. apply Hin in H as (_ & [Hg|Hp]).
      * discriminate Hg.
      * apply Hp. reflexivity.
Defined.
